(** * OKX trading tools: a shallow embedding of [main.py]

    The file follows the layout of the program: the primitives of the Python
    runtime the program calls (bytes, SHA-256, HMAC, base64, [str] methods,
    JSON values), the effects of a tool invocation (HTTP requests, the
    elicitation dialogue, console output) as a trace threaded through a small
    exception monad, then the signer, the header builder, the four tools and
    [main]; the properties of the order workflow and of the signer come
    last. *)

From Stdlib Require Import String Ascii List ZArith Lia Bool DecimalString.
Import ListNotations.

#[local] Set Warnings "-register-all".

Local Open Scope Z_scope.
Local Open Scope list_scope.

(** ** Bytes *)

(** A [str] is kept as the sequence of bytes of its UTF-8 encoding, so
    [bytes(s, 'utf-8')] only changes the representation. *)
Fixpoint utf8_bytes (s : string) : list Z :=
  match s with
  | EmptyString => []
  | String c s' => Z.of_N (N_of_ascii c) :: utf8_bytes s'
  end.

Definition is_byte (b : Z) : Prop := 0 <= b < 256.

(** Every byte, and every sequence of [n] bytes. *)
Definition all_bytes : list Z := map Z.of_nat (seq 0%nat 256%nat).

Fixpoint all_words (n : nat) : list (list Z) :=
  match n with
  | O => [[]]
  | S n' => flat_map (fun b => map (cons b) (all_words n')) all_bytes
  end.

(** ** SHA-256 (FIPS 180-4), on 32-bit words kept in [Z] *)

Module SHA256.

Definition wrap32 (x : Z) : Z := x mod 4294967296.

Definition add32 (x y : Z) : Z := wrap32 (x + y).

Definition rotr (n x : Z) : Z :=
  Z.lor (Z.shiftr x n) (wrap32 (Z.shiftl x (32 - n))).

Definition not32 (x : Z) : Z := 4294967295 - x.

Definition ch (x y z : Z) : Z :=
  Z.lxor (Z.land x y) (Z.land (not32 x) z).

Definition maj (x y z : Z) : Z :=
  Z.lxor (Z.lxor (Z.land x y) (Z.land x z)) (Z.land y z).

Definition big_sigma0 (x : Z) : Z :=
  Z.lxor (Z.lxor (rotr 2 x) (rotr 13 x)) (rotr 22 x).

Definition big_sigma1 (x : Z) : Z :=
  Z.lxor (Z.lxor (rotr 6 x) (rotr 11 x)) (rotr 25 x).

Definition small_sigma0 (x : Z) : Z :=
  Z.lxor (Z.lxor (rotr 7 x) (rotr 18 x)) (Z.shiftr x 3).

Definition small_sigma1 (x : Z) : Z :=
  Z.lxor (Z.lxor (rotr 17 x) (rotr 19 x)) (Z.shiftr x 10).

(** The constants are not tabulated but computed as the standard
    defines them, from the first primes: the first thirty-two bits of the
    fractional part of a cube root (round constants) or of a square root
    (initial hash value). *)
Fixpoint primes_from (fuel : nat) (candidate : Z) (found : list Z)
    (wanted : nat) : list Z :=
  match fuel, wanted with
  | S fuel', S wanted' =>
      if forallb (fun p => negb (candidate mod p =? 0)) found then
        primes_from fuel' (candidate + 1) (found ++ [candidate]) wanted'
      else primes_from fuel' (candidate + 1) found wanted
  | _, _ => found
  end.

Definition first_primes (n : nat) : list Z := primes_from 400 2 [] n.

(** Bisection for the integer cube root, between [lo] and [hi]. *)
Fixpoint bisect_cube (fuel : nat) (lo hi x : Z) : Z :=
  match fuel with
  | O => lo
  | S fuel' =>
      let mid := (lo + hi) / 2 in
      if mid =? lo then lo
      else if mid * mid * mid <=? x then bisect_cube fuel' mid hi x
           else bisect_cube fuel' lo mid x
  end.

Definition cube_root (x : Z) : Z := bisect_cube 64 0 (2 ^ 36) x.

Definition round_constants : list Z :=
  Eval vm_compute in
    map (fun p => wrap32 (cube_root (p * 2 ^ 96))) (first_primes 64).

Definition initial_hash : list Z :=
  Eval vm_compute in
    map (fun p => wrap32 (Z.sqrt (p * 2 ^ 64))) (first_primes 8).

(** Big-endian bytes of a word, and back. *)
Definition word_bytes (x : Z) : list Z :=
  [ Z.shiftr x 24 mod 256; Z.shiftr x 16 mod 256;
    Z.shiftr x 8 mod 256; x mod 256 ].

Fixpoint words_of_bytes (bs : list Z) : list Z :=
  match bs with
  | b0 :: b1 :: b2 :: b3 :: rest =>
      (((b0 * 256 + b1) * 256 + b2) * 256 + b3) :: words_of_bytes rest
  | _ => []
  end.

(** Padding: the byte 0x80, zeros up to 56 modulo 64, the bit length on
    eight bytes. *)
Definition pad (msg : list Z) : list Z :=
  let len := Z.of_nat (length msg) in
  let zeros := Z.to_nat ((55 - len) mod 64) in
  let bits := len * 8 in
  msg ++ [128] ++ repeat 0 zeros
      ++ word_bytes (Z.shiftr bits 32 mod 4294967296)
      ++ word_bytes (bits mod 4294967296).

(** The message schedule keeps a window of the last sixteen words. *)
Fixpoint schedule (n : nat) (window : list Z) : list Z :=
  match n with
  | O => []
  | S n' =>
      match window with
      | [] => []
      | w0 :: tl =>
          let w1 := nth 0 tl 0 in
          let w9 := nth 8 tl 0 in
          let w14 := nth 13 tl 0 in
          let next :=
            add32 (add32 (small_sigma1 w14) w9)
                  (add32 (small_sigma0 w1) w0) in
          w0 :: schedule n' (tl ++ [next])
      end
  end.

Record regs : Type :=
  mk_regs { ra : Z; rb : Z; rc : Z; rd : Z; re : Z; rf : Z; rg : Z; rh : Z }.

Definition round (s : regs) (kw : Z * Z) : regs :=
  let t1 :=
    add32 (add32 (add32 (rh s) (big_sigma1 (re s)))
                 (add32 (ch (re s) (rf s) (rg s)) (fst kw)))
          (snd kw) in
  let t2 := add32 (big_sigma0 (ra s)) (maj (ra s) (rb s) (rc s)) in
  mk_regs (add32 t1 t2) (ra s) (rb s) (rc s)
          (add32 (rd s) t1) (re s) (rf s) (rg s).

Definition regs_of_list (h : list Z) : regs :=
  mk_regs (nth 0 h 0) (nth 1 h 0) (nth 2 h 0) (nth 3 h 0)
          (nth 4 h 0) (nth 5 h 0) (nth 6 h 0) (nth 7 h 0).

Definition list_of_regs (s : regs) : list Z :=
  [ ra s; rb s; rc s; rd s; re s; rf s; rg s; rh s ].

Definition compress (h : list Z) (block : list Z) : list Z :=
  let w := schedule 64 block in
  let s := fold_left round (combine round_constants w) (regs_of_list h) in
  map (fun p => add32 (fst p) (snd p)) (combine h (list_of_regs s)).

Fixpoint blocks (n : nat) (ws : list Z) : list (list Z) :=
  match n with
  | O => []
  | S n' =>
      match ws with
      | [] => []
      | _ => firstn 16 ws :: blocks n' (skipn 16 ws)
      end
  end.

Definition digest (msg : list Z) : list Z :=
  let ws := words_of_bytes (pad msg) in
  let h := fold_left compress (blocks (length ws) ws) initial_hash in
  flat_map word_bytes h.

End SHA256.

(** ** HMAC (RFC 2104) with SHA-256, as [hmac.new(key, msg, 'sha256').digest()] *)

Module HMAC.

Definition block_size : nat := 64.

Definition block_key (key : list Z) : list Z :=
  let k := if (length key <=? block_size)%nat then key
           else SHA256.digest key in
  k ++ repeat 0 (block_size - length k).

Definition xor_pad (c : Z) (k : list Z) : list Z := map (Z.lxor c) k.

Definition hmac_sha256 (key msg : list Z) : list Z :=
  let k := block_key key in
  SHA256.digest (xor_pad 0x5c k ++ SHA256.digest (xor_pad 0x36 k ++ msg)).

End HMAC.

Local Open Scope string_scope.

(** ** Base64 (RFC 4648), as [base64.b64encode] *)

Module Base64.

Definition alphabet : string :=
  "ABCDEFGHIJKLMNOPQRSTUVWXYZabcdefghijklmnopqrstuvwxyz0123456789+/".

Definition sextet (n : Z) : string :=
  match String.get (Z.to_nat n) alphabet with
  | Some c => String c ""
  | None => ""
  end.

Fixpoint b64encode (bs : list Z) : string :=
  match bs with
  | [] => ""
  | [a] =>
      sextet (a / 4) ++ sextet (a mod 4 * 16) ++ "=="
  | [a; b] =>
      sextet (a / 4) ++ sextet (a mod 4 * 16 + b / 16)
        ++ sextet (b mod 16 * 4) ++ "="
  | a :: b :: c :: rest =>
      sextet (a / 4) ++ sextet (a mod 4 * 16 + b / 16)
        ++ sextet (b mod 16 * 4 + c / 64) ++ sextet (c mod 64)
        ++ b64encode rest
  end.

End Base64.

(** ** [str] methods *)

(** [s.split(sep)] for a separator of one character: never empty, one more
    piece than there are separators. *)
Fixpoint split (sep : ascii) (s : string) : list string :=
  match s with
  | EmptyString => [EmptyString]
  | String c s' =>
      if Ascii.eqb c sep then EmptyString :: split sep s'
      else match split sep s' with
           | piece :: pieces => String c piece :: pieces
           | [] => [String c EmptyString]
           end
  end.

(** Number of occurrences of a character. *)
Fixpoint count_char (sep : ascii) (s : string) : nat :=
  match s with
  | EmptyString => O
  | String c s' =>
      if Ascii.eqb c sep then S (count_char sep s') else count_char sep s'
  end.

(** [s[:-3]] *)
Definition drop_last3 (s : string) : string :=
  substring 0 (String.length s - 3) s.

(** [needle in hay] *)
Definition contains (needle hay : string) : Prop :=
  exists before after, hay = before ++ needle ++ after.

(** [s.startswith(p)] *)
Definition startswith (p s : string) : bool := String.prefix p s.

(** ** Exceptions and results *)

Inductive exn : Type :=
| ValueError (msg : option string)
    (** [Some m]: raised by the program with message [m];
        [None]: raised by a builtin ([int], [float], tuple unpacking) *)
| TypeError
| KeyError
| IndexError
| AttributeError
| OverflowError
| ConnectError        (** httpx could not complete the request *)
| HTTPStatusError     (** raised by [raise_for_status] *)
| JSONDecodeError     (** raised by [Response.json] *)
| ElicitationError.   (** raised inside [ctx.elicit] *)

Inductive result (A : Type) : Type :=
| Ok (a : A)
| Raise (e : exn).

Arguments Ok {A} a.
Arguments Raise {A} e.

Definition of_option {A : Type} (e : exn) (o : option A) : result A :=
  match o with
  | Some a => Ok a
  | None => Raise e
  end.

(** ** JSON values, as [Response.json] returns them

    [F] is the type of Python floats.  A [dict] is kept as the list of its
    items; a key is looked up from the front. *)
Inductive json (F : Type) : Type :=
| JNull
| JBool (b : bool)
| JInt (z : Z)
| JFloat (f : F)
| JStr (s : string)
| JArr (items : list (json F))
| JObj (members : list (string * json F)).

Arguments JNull {F}.
Arguments JBool {F} b.
Arguments JInt {F} z.
Arguments JFloat {F} f.
Arguments JStr {F} s.
Arguments JArr {F} items.
Arguments JObj {F} members.

Fixpoint assoc {A : Type} (k : string) (kv : list (string * A)) : option A :=
  match kv with
  | [] => None
  | (k', v) :: rest => if String.eqb k k' then Some v else assoc k rest
  end.

(** ** The builtins of the Python runtime the program relies on

    Floating-point conversion and printing, [str.upper], [int],
    [datetime] and [json.dumps] belong to the interpreter and its standard library, not to
    the program: the program is embedded over any implementation of
    them. *)
Class PyRuntime : Type := {
  pyfloat : Type;
  (** [float(s)] for a [str]; [None] is [ValueError] *)
  float_of_str : string -> option pyfloat;
  (** [float(n)] for an [int]; [None] is [OverflowError] *)
  float_of_int : Z -> option pyfloat;
  (** the literal [0.0] *)
  float_zero : pyfloat;
  (** [x > y] and [x <= y] on floats *)
  float_gt : pyfloat -> pyfloat -> bool;
  float_le : pyfloat -> pyfloat -> bool;
  (** [str(x)], as an f-string renders a float *)
  float_str : pyfloat -> string;
  (** [s.upper()] *)
  str_upper : string -> string;
  (** [int(s)] for a [str]; [None] is [ValueError] *)
  int_of_str : string -> option Z;
  (** [int(x)] for a float *)
  int_of_float : pyfloat -> result Z;
  (** [datetime.fromtimestamp(n / 1000, tz=timezone.utc)
        .strftime('%Y-%m-%dT%H:%M:%S.%f')] for an [int] [n] *)
  strftime_utc_ms : Z -> result string;
  (** [json.dumps(v)] and [json.dumps(v, indent=2)] *)
  json_dumps : json pyfloat -> string;
  json_dumps_indent2 : json pyfloat -> string
}.

(** The comparisons of a runtime agree: [x <= y] excludes [x > y]. *)
Definition float_order_consistent (rt : PyRuntime) : Prop :=
  forall x y : pyfloat, float_le x y = true -> float_gt x y = false.

(** * The program *)

Section Program.

Context {rt : PyRuntime}.

Abbreviation value := (json pyfloat).

(** ** Python operations on the values of a decoded response *)

Definition is_continuation (c : ascii) : bool :=
  let n := nat_of_ascii c in ((128 <=? n) && (n <=? 191))%nat.

Definition starts_with_continuation (s : string) : bool :=
  match s with
  | String c _ => is_continuation c
  | EmptyString => false
  end.

(** The characters of a [str]: each leading byte with the continuation
    bytes that follow it. *)
Fixpoint chars (s : string) : list string :=
  match s with
  | EmptyString => []
  | String c s' =>
      match chars s' with
      | piece :: pieces =>
          if starts_with_continuation s' then String c piece :: pieces
          else String c EmptyString :: piece :: pieces
      | [] => [String c EmptyString]
      end
  end.

(** [v[key]] with a [str] key *)
Definition getitem_key (v : value) (key : string) : result value :=
  match v with
  | JObj members => of_option KeyError (assoc key members)
  | _ => Raise TypeError
  end.

(** [v[0]] *)
Definition getitem_0 (v : value) : result value :=
  match v with
  | JArr (first :: _) => Ok first
  | JArr [] => Raise IndexError
  | JStr s =>
      match chars s with
      | first :: _ => Ok (JStr first)
      | [] => Raise IndexError
      end
  | JObj _ => Raise KeyError
  | _ => Raise TypeError
  end.

(** [v.get(key, default)]: only a [dict] has the method *)
Definition dict_get (v : value) (key : string) (default : value)
  : result value :=
  match v with
  | JObj members =>
      Ok (match assoc key members with
          | Some x => x
          | None => default
          end)
  | _ => Raise AttributeError
  end.

(** The items a [for] loop over [v] visits. *)
Definition iterate (v : value) : result (list value) :=
  match v with
  | JArr items => Ok items
  | JStr s => Ok (map JStr (chars s))
  | JObj members => Ok (map (fun kv => JStr (fst kv)) members)
  | _ => Raise TypeError
  end.

(** [v == s] for a [str] [s] *)
Definition eq_str (v : value) (s : string) : bool :=
  match v with
  | JStr s' => String.eqb s' s
  | _ => false
  end.

(** [float(v)] *)
Definition py_float (v : value) : result pyfloat :=
  match v with
  | JStr s => of_option (ValueError None) (float_of_str s)
  | JInt z => of_option OverflowError (float_of_int z)
  | JBool b => of_option OverflowError (float_of_int (if b then 1 else 0))
  | JFloat f => Ok f
  | _ => Raise TypeError
  end.

(** [int(v)] *)
Definition py_int (v : value) : result Z :=
  match v with
  | JStr s => of_option (ValueError None) (int_of_str s)
  | JInt z => Ok z
  | JBool b => Ok (if b then 1 else 0)
  | JFloat f => int_of_float f
  | _ => Raise TypeError
  end.

Definition bind_result {A B : Type} (r : result A) (k : A -> result B)
  : result B :=
  match r with
  | Ok a => k a
  | Raise e => Raise e
  end.

Notation "x <-? r ;; k" := (bind_result r (fun x => k))
  (at level 61, r at next level, right associativity).

(** ** Effects

    What a tool invocation does to the outside: HTTP requests, the
    elicitation dialogue and console output, in order. *)

Definition headers : Type := list (string * string).

Inductive event : Type :=
| HttpGet (url : string) (hdrs : option headers)
| HttpPost (url : string) (hdrs : headers) (content : string)
| Elicit (message : string)
| Print (line : string).

Record response : Type := {
  is_success : bool;              (** [raise_for_status] passes *)
  json_body : option value        (** [None]: the body is not JSON *)
}.

Inductive http_outcome : Type :=
| ConnectFailed
| Responded (r : response).

(** The exchange: the history up to and including a request determines
    its outcome. *)
Definition world : Type := list event -> http_outcome.

Definition M (A : Type) : Type :=
  world -> list event -> result A * list event.

Definition ret {A : Type} (a : A) : M A := fun _ tr => (Ok a, tr).

Definition raise {A : Type} (e : exn) : M A := fun _ tr => (Raise e, tr).

Definition bind {A B : Type} (m : M A) (k : A -> M B) : M B :=
  fun w tr =>
    match m w tr with
    | (Ok a, tr') => k a w tr'
    | (Raise e, tr') => (Raise e, tr')
    end.

Definition lift {A : Type} (r : result A) : M A := fun _ tr => (r, tr).

Notation "x <- m ;; k" := (bind m (fun x => k))
  (at level 61, m at next level, right associativity).

Definition request (e : event) : M response :=
  fun w tr =>
    let tr' := (tr ++ [e])%list in
    match w tr' with
    | ConnectFailed => (Raise ConnectError, tr')
    | Responded r => (Ok r, tr')
    end.

(** [await client.get(url)] / [await client.get(url, headers=hdrs)] *)
Definition client_get (url : string) (hdrs : option headers) : M response :=
  request (HttpGet url hdrs).

(** [await client.post(url, headers=hdrs, content=content)] *)
Definition client_post (url : string) (hdrs : headers) (content : string)
  : M response :=
  request (HttpPost url hdrs content).

Definition raise_for_status (r : response) : M unit :=
  if is_success r then ret tt else raise HTTPStatusError.

Definition response_json (r : response) : M value :=
  lift (of_option JSONDecodeError (json_body r)).

(** [print(line)] *)
Definition print (line : string) : M unit :=
  fun _ tr => (Ok tt, (tr ++ [Print line])%list).

(** The run of a computation from an empty history. *)
Definition run {A : Type} (m : M A) (w : world) : result A * list event :=
  m w [].

Definition outcome {A : Type} (m : M A) (w : world) : result A :=
  fst (run m w).

Definition trace {A : Type} (m : M A) (w : world) : list event :=
  snd (run m w).

(** ** The elicitation dialogue *)

Record OrderElicitation : Type := {
  tryAgain : bool;
  newSize : string
}.

(** What [ctx.elicit] returns: [data] is only there on "accept". *)
Record ElicitationResult : Type := {
  action : string;
  data : option OrderElicitation
}.

Inductive elicit_outcome : Type :=
| ElicitRaised (e : exn)
| ElicitReturned (r : ElicitationResult).

Record Context : Type := {
  elicit_reply : string -> elicit_outcome
}.

(** [await ctx.elicit(message=message, schema=OrderElicitation)] *)
Definition elicit (ctx : Context) (message : string) : M ElicitationResult :=
  fun _ tr =>
    let tr' := (tr ++ [Elicit message])%list in
    match elicit_reply ctx message with
    | ElicitRaised e => (Raise e, tr')
    | ElicitReturned r => (Ok r, tr')
    end.

(** ** Configuration

    The four module-level values read from [key.env].  A key that is
    missing, or present without a value, gives [None]. *)

Record config : Type := {
  API_KEY : option string;
  API_SECRET : option string;
  API_PASSPHRASE : option string;
  BASE_URL : option string
}.

Variable cfg : config.

(** [not x] for a value that is [None] or a [str] *)
Definition is_falsy (x : option string) : bool :=
  match x with
  | None => true
  | Some EmptyString => true
  | Some (String _ _) => false
  end.

(** [str(x)], as [print] and an f-string render it *)
Definition text (x : option string) : string :=
  match x with
  | Some s => s
  | None => "None"
  end.

(** ** The signing tools *)

Definition get_okx_server_time : M string :=
  resp <- client_get (text (BASE_URL cfg) ++ "/api/v5/public/time") None ;;
  _ <- raise_for_status resp ;;
  body <- response_json resp ;;
  items <- lift (getitem_key body "data") ;;
  item <- lift (getitem_0 items) ;;
  ts <- lift (getitem_key item "ts") ;;
  millis <- lift (py_int ts) ;;
  stamp <- lift (strftime_utc_ms millis) ;;
  ret (drop_last3 stamp ++ "Z").

Definition get_okx_signature (timestamp method request_path body : string)
  : result string :=
  match API_SECRET cfg with
  | Some (String c secret) =>
      let message := timestamp ++ str_upper method ++ request_path ++ body in
      let mac :=
        HMAC.hmac_sha256 (utf8_bytes (String c secret)) (utf8_bytes message) in
      Ok (Base64.b64encode mac)
  | _ =>
      Raise (ValueError (Some "API_SECRET not found in environment variables."))
  end.

Definition get_okx_headers (method request_path body : string)
    (timestamp : option string) : M headers :=
  if is_falsy (API_KEY cfg) || is_falsy (API_PASSPHRASE cfg) then
    raise (ValueError
             (Some "API_KEY or API_PASSPHRASE not found in environment variables."))
  else
    timestamp <- (if is_falsy timestamp then get_okx_server_time
                  else ret (text timestamp)) ;;
    signature <- lift (get_okx_signature timestamp method request_path body) ;;
    ret [ ("Content-Type", "application/json");
          ("OK-ACCESS-KEY", text (API_KEY cfg));
          ("OK-ACCESS-SIGN", signature);
          ("OK-ACCESS-TIMESTAMP", timestamp);
          ("OK-ACCESS-PASSPHRASE", text (API_PASSPHRASE cfg));
          ("x-simulated-trading", "0") ].

(** ** The tools *)

(** The three query tools share their body after [request_path] is set. *)
Definition signed_get (request_path : string) : M string :=
  timestamp <- get_okx_server_time ;;
  hdrs <- get_okx_headers "GET" request_path "" (Some timestamp) ;;
  response <- client_get (text (BASE_URL cfg) ++ request_path) (Some hdrs) ;;
  _ <- raise_for_status response ;;
  body <- response_json response ;;
  ret (json_dumps_indent2 body).

Definition get_balance : M string :=
  signed_get "/api/v5/account/balance".

Definition get_ticker (instId : string) : M string :=
  signed_get ("/api/v5/market/ticker?instId=" ++ instId).

Definition get_kline (instId bar : string) : M string :=
  signed_get ("/api/v5/market/candles?instId=" ++ instId ++ "&bar=" ++ bar).

(** [base_ccy, quote_ccy = pieces] *)
Definition unpack_pair (pieces : list string) : result (string * string) :=
  match pieces with
  | [base_ccy; quote_ccy] => Ok (base_ccy, quote_ccy)
  | _ => Raise (ValueError None)
  end.

(** The loop of [create_order] over the detail entries, with its [break]. *)
Fixpoint scan_details (details : list value) (ccy : string)
  : result pyfloat :=
  match details with
  | [] => Ok float_zero
  | acc :: rest =>
      held <-? dict_get acc "ccy" JNull ;;
      if eq_str held ccy then
        avail <-? dict_get acc "availBal" (JInt 0) ;;
        py_float avail
      else scan_details rest ccy
  end.

(** The value of [available] after the loop of [create_order]. *)
Definition resolve_available (balance_data : value) (ccy : string)
  : result pyfloat :=
  accounts <-? dict_get balance_data "data" (JArr [JObj []]) ;;
  account <-? getitem_0 accounts ;;
  details <-? dict_get account "details" (JArr []) ;;
  entries <-? iterate details ;;
  scan_details entries ccy.

Definition order_path : string := "/api/v5/trade/order".

Definition order_body (instId tdMode side ordType sz : string) : value :=
  JObj [ ("instId", JStr instId); ("tdMode", JStr tdMode);
         ("side", JStr side); ("ordType", JStr ordType); ("sz", JStr sz) ].

(** The end of [create_order], from the comment that opens the submission:
    the order is built, signed and posted. *)
Definition submit_order (instId side sz ordType tdMode : string) : M string :=
  let request_path := order_path in
  let body_str := json_dumps (order_body instId tdMode side ordType sz) in
  timestamp <- get_okx_server_time ;;
  hdrs <- get_okx_headers "POST" request_path body_str (Some timestamp) ;;
  response <- client_post (text (BASE_URL cfg) ++ request_path) hdrs body_str ;;
  _ <- raise_for_status response ;;
  body <- response_json response ;;
  ret (json_dumps_indent2 body).

Definition elicit_message (ccy : string) (available : pyfloat) (sz : string)
  : string :=
  "当前" ++ ccy ++ "可用余额为" ++ float_str available
    ++ "，下单数量" ++ sz ++ "超出余额，是否尝试更小的数量？".

Definition cancelled_message : string := "[CANCELLED] 余额不足，订单已取消".

Definition failed_message (ccy : string) (available : pyfloat) : string :=
  "[FAILED] 余额不足，可用" ++ ccy ++ "为" ++ float_str available.

(** [result.action == "accept" and result.data and result.data.tryAgain] *)
Definition accepted (r : ElicitationResult) : option OrderElicitation :=
  if String.eqb (action r) "accept" then
    match data r with
    | Some d => if tryAgain d then Some d else None
    | None => None
    end
  else None.

Definition create_order (instId side sz ordType tdMode : string)
    (ctx : option Context) : M string :=
  let request_path_balance := "/api/v5/account/balance" in
  timestamp_balance <- get_okx_server_time ;;
  headers_balance <-
    get_okx_headers "GET" request_path_balance "" (Some timestamp_balance) ;;
  resp_balance <-
    client_get (text (BASE_URL cfg) ++ request_path_balance)
               (Some headers_balance) ;;
  _ <- raise_for_status resp_balance ;;
  balance_data <- response_json resp_balance ;;
  pair <- lift (unpack_pair (split "-" instId)) ;;
  let base_ccy := fst pair in
  let quote_ccy := snd pair in
  let ccy := if String.eqb side "buy" then quote_ccy else base_ccy in
  available <- lift (resolve_available balance_data ccy) ;;
  requested <- lift (of_option (ValueError None) (float_of_str sz)) ;;
  if float_gt requested available then
    match ctx with
    | Some ctx =>
        result <- elicit ctx (elicit_message ccy available sz) ;;
        match accepted result with
        | Some d => submit_order instId side (newSize d) ordType tdMode
        | None => ret cancelled_message
        end
    | None => ret (failed_message ccy available)
    end
  else submit_order instId side sz ordType tdMode.

(** ** Start-up *)

Definition newline : string := String (ascii_of_nat 10) EmptyString.

Definition banner : string :=
  "Hello from mcp-server-demo!" ++ newline
    ++ "可用MCP工具：get_balance, get_ticker, get_kline, create_order".

Definition print_settings : M unit :=
  _ <- print banner ;;
  _ <- print ("API_KEY: " ++ text (API_KEY cfg)) ;;
  _ <- print ("API_SECRET: " ++ text (API_SECRET cfg)) ;;
  print ("API_PASSPHRASE: " ++ text (API_PASSPHRASE cfg)).

Definition main : M unit := print_settings.

(** The [__main__] block, up to the call that hands control to the server
    loop of the hosting library. *)
Definition startup (argv : list string) : M unit :=
  match argv with
  | _ :: "run" :: _ =>
      _ <- print "Starting OKX MCP Server via SSE..." ;;
      print_settings
  | _ => main
  end.

End Program.

(** * A reference runtime

    An implementation of [PyRuntime] on exact decimals, to run the program
    on concrete inputs.  It covers plain decimal literals ([-12.50]),
    on which it agrees with CPython as long as the literals have at most
    fifteen significant digits and a magnitude between 1e-4 and 1e16, and
    ASCII text for [str.upper]. *)

Module Reference.

(** The number [digits / 10 ^ scale]. *)
Record dec : Type := { digits : Z; scale : nat }.

Definition pow10 (n : nat) : Z := 10 ^ Z.of_nat n.

Definition parse_unsigned (s : string) : option Z :=
  match s with
  | EmptyString => None
  | _ => option_map Z.of_uint (NilEmpty.uint_of_string s)
  end.

Definition parse_magnitude (s : string) : option dec :=
  match split "." s with
  | [whole] =>
      option_map (fun n => {| digits := n; scale := O |}) (parse_unsigned whole)
  | [whole; fraction] =>
      match parse_unsigned (whole ++ fraction) with
      | Some n => Some {| digits := n; scale := String.length fraction |}
      | None => None
      end
  | _ => None
  end.

Definition opposite (d : dec) : dec :=
  {| digits := - digits d; scale := scale d |}.

Definition parse_dec (s : string) : option dec :=
  match s with
  | String "-" rest => option_map opposite (parse_magnitude rest)
  | _ => parse_magnitude s
  end.

Definition parse_int (s : string) : option Z :=
  match s with
  | String "-" rest => option_map Z.opp (parse_unsigned rest)
  | _ => parse_unsigned s
  end.

Definition dec_of_int (n : Z) : dec := {| digits := n; scale := O |}.

Definition dec_gt (x y : dec) : bool :=
  (digits y * pow10 (scale x) <? digits x * pow10 (scale y))%Z.

Definition dec_le (x y : dec) : bool :=
  (digits x * pow10 (scale y) <=? digits y * pow10 (scale x))%Z.

(** Trailing zeros of the fraction are dropped before printing. *)
Fixpoint trim (n : Z) (k : nat) : dec :=
  match k with
  | O => {| digits := n; scale := O |}
  | S k' =>
      if (n mod 10 =? 0)%Z then trim (n / 10) k'
      else {| digits := n; scale := k |}
  end.

Definition show_nat (n : Z) : string := NilZero.string_of_int (Z.to_int n).

Fixpoint zeros (n : nat) : string :=
  match n with
  | O => EmptyString
  | S n' => String "0" (zeros n')
  end.

Definition pad_left (width : nat) (s : string) : string :=
  zeros (width - String.length s) ++ s.

Definition show_dec (d : dec) : string :=
  let t := trim (Z.abs (digits d)) (scale d) in
  let sign := if (digits d <? 0)%Z then "-" else "" in
  let whole := digits t / pow10 (scale t) in
  let fraction := digits t mod pow10 (scale t) in
  sign ++ show_nat whole ++ "."
       ++ match scale t with
          | O => "0"
          | S _ => pad_left (scale t) (show_nat fraction)
          end.

Definition trunc_dec (d : dec) : Z := Z.quot (digits d) (pow10 (scale d)).

(** Calendar date of a day number counted from 1970-01-01. *)
Definition civil (day : Z) : Z * Z * Z :=
  let z := day + 719468 in
  let era := z / 146097 in
  let doe := z - era * 146097 in
  let yoe := (doe - doe / 1460 + doe / 36524 - doe / 146096) / 365 in
  let doy := doe - (365 * yoe + yoe / 4 - yoe / 100) in
  let mp := (5 * doy + 2) / 153 in
  let d := doy - (153 * mp + 2) / 5 + 1 in
  let m := if (mp <? 10)%Z then mp + 3 else mp - 9 in
  let y := yoe + era * 400 + (if (m <=? 2)%Z then 1 else 0) in
  (y, m, d).

Definition two (n : Z) : string := pad_left 2 (show_nat n).

Definition strftime (millis : Z) : result string :=
  let seconds := millis / 1000 in
  let '(y, m, d) := civil (seconds / 86400) in
  let clock := seconds mod 86400 in
  if ((1 <=? y) && (y <=? 9999))%Z then
    Ok (pad_left 4 (show_nat y) ++ "-" ++ two m ++ "-" ++ two d ++ "T"
          ++ two (clock / 3600) ++ ":" ++ two (clock / 60 mod 60) ++ ":"
          ++ two (clock mod 60) ++ "."
          ++ pad_left 3 (show_nat (millis mod 1000)) ++ "000")
  else Raise (ValueError None).

(** *** [json.dumps] *)

Definition hex_digit (n : Z) : string :=
  match String.get (Z.to_nat n) "0123456789abcdef" with
  | Some c => String c EmptyString
  | None => EmptyString
  end.

Definition hex4 (n : Z) : string :=
  hex_digit (n / 4096 mod 16) ++ hex_digit (n / 256 mod 16)
    ++ hex_digit (n / 16 mod 16) ++ hex_digit (n mod 16).

Definition backslash : string := String (ascii_of_nat 92) EmptyString.

Definition double_quote : string := String (ascii_of_nat 34) EmptyString.

Definition escape_unit (n : Z) : string := backslash ++ "u" ++ hex4 n.

(** Code point of one UTF-8 character. *)
Definition code_point (ch : string) : Z :=
  match utf8_bytes ch with
  | [b0] => b0
  | [b0; b1] => (b0 mod 32) * 64 + b1 mod 64
  | [b0; b1; b2] => ((b0 mod 16) * 64 + b1 mod 64) * 64 + b2 mod 64
  | [b0; b1; b2; b3] =>
      (((b0 mod 8) * 64 + b1 mod 64) * 64 + b2 mod 64) * 64 + b3 mod 64
  | _ => 65533
  end.

Definition escape_char (ch : string) : string :=
  let cp := code_point ch in
  if (cp =? 34)%Z then backslash ++ double_quote
  else if (cp =? 92)%Z then backslash ++ backslash
  else if (cp =? 10)%Z then backslash ++ "n"
  else if (cp =? 13)%Z then backslash ++ "r"
  else if (cp =? 9)%Z then backslash ++ "t"
  else if (cp =? 8)%Z then backslash ++ "b"
  else if (cp =? 12)%Z then backslash ++ "f"
  else if ((32 <=? cp) && (cp <? 127))%Z then ch
  else if (cp <? 65536)%Z then escape_unit cp
  else escape_unit (55296 + (cp - 65536) / 1024)
         ++ escape_unit (56320 + (cp - 65536) mod 1024).

Definition quote (s : string) : string :=
  double_quote ++ String.concat "" (map escape_char (chars s)) ++ double_quote.

Definition show_int (n : Z) : string := NilZero.string_of_int (Z.to_int n).

(** Upper case of the letters a-z; every other byte is kept, so the
    function is [str.upper] on ASCII text only. *)
Definition upper_ascii (c : ascii) : ascii :=
  let n := nat_of_ascii c in
  if ((97 <=? n) && (n <=? 122))%nat then ascii_of_nat (n - 32) else c.

Fixpoint upper (s : string) : string :=
  match s with
  | EmptyString => EmptyString
  | String c s' => String (upper_ascii c) (upper s')
  end.

Fixpoint dumps (v : json dec) : string :=
  match v with
  | JNull => "null"
  | JBool b => if b then "true" else "false"
  | JInt n => show_int n
  | JFloat f => show_dec f
  | JStr s => quote s
  | JArr items => "[" ++ String.concat ", " (map dumps items) ++ "]"
  | JObj members =>
      "{" ++ String.concat ", "
               (map (fun kv => quote (fst kv) ++ ": " ++ dumps (snd kv))
                    members)
          ++ "}"
  end.

Fixpoint spaces (n : nat) : string :=
  match n with
  | O => EmptyString
  | S n' => String " " (spaces n')
  end.

Definition line_break (level : nat) : string :=
  String (ascii_of_nat 10) (spaces (2 * level)).

Fixpoint dumps_indent2 (level : nat) (v : json dec) : string :=
  match v with
  | JArr [] => "[]"
  | JArr items =>
      "[" ++ line_break (S level)
          ++ String.concat ("," ++ line_break (S level))
               (map (dumps_indent2 (S level)) items)
          ++ line_break level ++ "]"
  | JObj [] => "{}"
  | JObj members =>
      "{" ++ line_break (S level)
          ++ String.concat ("," ++ line_break (S level))
               (map (fun kv =>
                       quote (fst kv) ++ ": "
                         ++ dumps_indent2 (S level) (snd kv))
                    members)
          ++ line_break level ++ "}"
  | _ => dumps v
  end.

Definition runtime : PyRuntime := {|
  pyfloat := dec;
  float_of_str := parse_dec;
  float_of_int := fun n => Some (dec_of_int n);
  float_zero := dec_of_int 0;
  float_gt := dec_gt;
  float_le := dec_le;
  float_str := show_dec;
  str_upper := upper;
  int_of_str := parse_int;
  int_of_float := fun d => Ok (trunc_dec d);
  strftime_utc_ms := strftime;
  json_dumps := dumps;
  json_dumps_indent2 := dumps_indent2 O
|}.

End Reference.

Notation "x <- m ;; k" := (bind m (fun x => k))
  (at level 61, m at next level, right associativity).

(** * What a run shows

    The observations the properties are stated on, and the stages of
    [create_order] they refer to. *)

Section Observations.

Context {rt : PyRuntime}.

Variable cfg : config.

Definition clock_url : string :=
  text (BASE_URL cfg) ++ "/api/v5/public/time".

Definition balance_url : string :=
  text (BASE_URL cfg) ++ "/api/v5/account/balance".

Definition order_url : string := text (BASE_URL cfg) ++ order_path.

(** The orders submitted: URL and content of every POST, in order. *)
Fixpoint posted (tr : list event) : list (string * string) :=
  match tr with
  | [] => []
  | HttpPost url _ content :: rest => (url, content) :: posted rest
  | _ :: rest => posted rest
  end.

(** The messages put to the negotiation collaborator. *)
Fixpoint elicited (tr : list event) : list string :=
  match tr with
  | [] => []
  | Elicit message :: rest => message :: elicited rest
  | _ :: rest => elicited rest
  end.

(** The lines written to the console. *)
Fixpoint printed (tr : list event) : list string :=
  match tr with
  | [] => []
  | Print line :: rest => line :: printed rest
  | _ :: rest => printed rest
  end.

(** The URLs fetched with GET, in order. *)
Fixpoint queried (tr : list event) : list string :=
  match tr with
  | [] => []
  | HttpGet url _ :: rest => url :: queried rest
  | _ :: rest => queried rest
  end.

Definition is_network (e : event) : bool :=
  match e with
  | HttpGet _ _ | HttpPost _ _ _ => true
  | Elicit _ | Print _ => false
  end.

Definition network_calls (tr : list event) : list event :=
  filter is_network tr.

(** A request that carries the credentials. *)
Definition is_authenticated (e : event) : bool :=
  match e with
  | HttpGet _ (Some _) | HttpPost _ _ _ => true
  | _ => false
  end.

(** The opening of [create_order]: the balance query, up to the decoded
    response bound to [balance_data]. *)
Definition fetch_balance : M (json pyfloat) :=
  let request_path_balance := "/api/v5/account/balance" in
  timestamp_balance <- get_okx_server_time cfg ;;
  headers_balance <-
    get_okx_headers cfg "GET" request_path_balance "" (Some timestamp_balance) ;;
  resp_balance <-
    client_get (text (BASE_URL cfg) ++ request_path_balance)
               (Some headers_balance) ;;
  _ <- raise_for_status resp_balance ;;
  response_json resp_balance.

(** [create_order] up to the comparison [float(sz) > available]: the
    checked currency, the available amount and the requested size. *)
Definition check_balance (instId side sz : string)
  : M (string * pyfloat * pyfloat) :=
  balance_data <- fetch_balance ;;
  pair <- lift (unpack_pair (split "-" instId)) ;;
  let ccy := if String.eqb side "buy" then snd pair else fst pair in
  available <- lift (resolve_available balance_data ccy) ;;
  requested <- lift (of_option (ValueError None) (float_of_str sz)) ;;
  ret (ccy, available, requested).

(** What [create_order] does once the balance check has resolved. *)
Definition decide (instId side sz ordType tdMode : string)
    (ctx : option Context) (checked : string * pyfloat * pyfloat) : M string :=
  let '(ccy, available, requested) := checked in
  if float_gt requested available then
    match ctx with
    | Some ctx =>
        result <- elicit ctx (elicit_message ccy available sz) ;;
        match accepted result with
        | Some d => submit_order cfg instId side (newSize d) ordType tdMode
        | None => ret cancelled_message
        end
    | None => ret (failed_message ccy available)
    end
  else submit_order cfg instId side sz ordType tdMode.

(** The pattern the tools share: fetch the time, sign, send the request
    built from the headers, check the status, decode the body. *)
Definition signed_exchange (method request_path body : string)
    (req : headers -> event) : M (json pyfloat) :=
  timestamp <- get_okx_server_time cfg ;;
  hdrs <- get_okx_headers cfg method request_path body (Some timestamp) ;;
  response <- request (req hdrs) ;;
  _ <- raise_for_status response ;;
  response_json response.

Definition map_result {A B : Type} (f : A -> B) (x : result A * list event)
  : result B * list event :=
  match x with
  | (Ok a, tr) => (Ok (f a), tr)
  | (Raise e, tr) => (Raise e, tr)
  end.

(** The tools registered with the server. *)
Inductive tool_call : Type :=
| CallGetBalance
| CallGetTicker (instId : string)
| CallGetKline (instId bar : string)
| CallCreateOrder (instId side sz ordType tdMode : string)
                  (ctx : option Context).

Definition invoke (c : tool_call) : M string :=
  match c with
  | CallGetBalance => get_balance cfg
  | CallGetTicker instId => get_ticker cfg instId
  | CallGetKline instId bar => get_kline cfg instId bar
  | CallCreateOrder instId side sz ordType tdMode ctx =>
      create_order cfg instId side sz ordType tdMode ctx
  end.

(** A credential is missing: one of the three is [None] or empty. *)
Definition credential_absent : bool :=
  is_falsy (API_KEY cfg) || is_falsy (API_SECRET cfg)
    || is_falsy (API_PASSPHRASE cfg).

(** A detail entry the loop of [create_order] passes over: a [dict] whose
    ['ccy'] is not the checked currency. *)
Definition passed_over (ccy : string) (entry : json pyfloat) : bool :=
  match entry with
  | JObj members =>
      negb (eq_str (match assoc "ccy" members with
                    | Some held => held
                    | None => JNull
                    end) ccy)
  | _ => false
  end.

(** The message [get_okx_signature] authenticates. *)
Definition signed_message (timestamp method request_path body : string)
  : string :=
  timestamp ++ str_upper method ++ request_path ++ body.

(** The signature as the exchange defines it: the base64 text of the
    HMAC-SHA256 digest, keyed by the secret, of the signed message. *)
Definition okx_signature (secret timestamp method request_path body : string)
  : string :=
  Base64.b64encode
    (HMAC.hmac_sha256
       (utf8_bytes secret)
       (utf8_bytes (signed_message timestamp method request_path body))).

(** The headers of an authenticated request. *)
Definition signed_headers (method request_path body timestamp : string)
  : headers :=
  [ ("Content-Type", "application/json");
    ("OK-ACCESS-KEY", text (API_KEY cfg));
    ("OK-ACCESS-SIGN",
     okx_signature (text (API_SECRET cfg)) timestamp method request_path body);
    ("OK-ACCESS-TIMESTAMP", timestamp);
    ("OK-ACCESS-PASSPHRASE", text (API_PASSPHRASE cfg));
    ("x-simulated-trading", "0") ].

(** The three requests a run is made of. *)
Definition clock_request : event := HttpGet clock_url None.

Definition balance_request (timestamp : string) : event :=
  HttpGet balance_url
          (Some (signed_headers "GET" "/api/v5/account/balance" "" timestamp)).

Definition order_request (instId side sz ordType tdMode timestamp : string)
  : event :=
  let body := json_dumps (order_body instId tdMode side ordType sz) in
  HttpPost order_url (signed_headers "POST" order_path body timestamp) body.

(** The error [get_okx_signature] raises without a secret. *)
Definition secret_error : exn :=
  ValueError (Some "API_SECRET not found in environment variables.").

(** The two messages of the configuration error. *)
Definition missing_credential_message (msg : string) : Prop :=
  msg = "API_KEY or API_PASSPHRASE not found in environment variables."
  \/ msg = "API_SECRET not found in environment variables.".

(** What the lines after a request ([raise_for_status], then [json()]) make
    of its outcome. *)
Definition received (o : http_outcome) : result (json pyfloat) :=
  match o with
  | ConnectFailed => Raise ConnectError
  | Responded r =>
      if is_success r then of_option JSONDecodeError (json_body r)
      else Raise HTTPStatusError
  end.

(** A request whose signature covers what it sends: the clock fetch
    carries no header; an authenticated GET is signed for the path after
    the base URL and an empty body; a POST goes to the order path and is
    signed for its own content; the timestamp signed is the one sent. *)
Definition well_signed (e : event) : Prop :=
  match e with
  | HttpGet url None => url = clock_url
  | HttpGet url (Some hdrs) =>
      exists path timestamp,
        url = text (BASE_URL cfg) ++ path
        /\ hdrs = signed_headers "GET" path "" timestamp
  | HttpPost url hdrs content =>
      exists timestamp,
        url = order_url
        /\ hdrs = signed_headers "POST" order_path content timestamp
  | Elicit _ | Print _ => True
  end.

End Observations.

(** ** Two runs that differ in the secret *)

Definition scrub_header (h : string * string) : string * string :=
  if String.eqb (fst h) "OK-ACCESS-SIGN" then (fst h, "") else h.

(** An event with the value of its signature header blanked. *)
Definition scrub (e : event) : event :=
  match e with
  | HttpGet url (Some hdrs) => HttpGet url (Some (map scrub_header hdrs))
  | HttpPost url hdrs content => HttpPost url (map scrub_header hdrs) content
  | _ => e
  end.

(** Two events that are the same message, or the same request signed by
    each configuration with its own credentials. *)
Inductive twin {rt : PyRuntime} (c1 c2 : config) : event -> event -> Prop :=
| twin_plain (e : event) :
    is_authenticated e = false -> twin c1 c2 e e
| twin_get (path timestamp : string) :
    twin c1 c2
      (HttpGet (text (BASE_URL c1) ++ path)
               (Some (signed_headers c1 "GET" path "" timestamp)))
      (HttpGet (text (BASE_URL c2) ++ path)
               (Some (signed_headers c2 "GET" path "" timestamp)))
| twin_post (content timestamp : string) :
    twin c1 c2
      (HttpPost (order_url c1)
                (signed_headers c1 "POST" order_path content timestamp)
                content)
      (HttpPost (order_url c2)
                (signed_headers c2 "POST" order_path content timestamp)
                content).

(** Two exchanges that answer alike when the histories they are shown
    differ only in the signatures the two configurations compute.  An
    exchange that verifies each signature against its own copy of the
    secret is of this kind; so is one that ignores signatures. *)
Definition same_replies {rt : PyRuntime} (c1 c2 : config) (w1 w2 : world)
  : Prop :=
  forall tr1 tr2, Forall2 (twin c1 c2) tr1 tr2 -> w1 tr1 = w2 tr2.

(** Two header sets built for the same request. *)
Definition twin_headers {rt : PyRuntime} (c1 c2 : config) (m p b : string)
    (h1 h2 : headers) : Prop :=
  exists timestamp,
    h1 = signed_headers c1 m p b timestamp
    /\ h2 = signed_headers c2 m p b timestamp.

Definition same_outcome {A : Type} (R : A -> A -> Prop)
    (r1 r2 : result A) : Prop :=
  match r1, r2 with
  | Ok a1, Ok a2 => R a1 a2
  | Raise e1, Raise e2 => e1 = e2
  | _, _ => False
  end.

(** Two computations that, run against the two exchanges from twin
    histories, end in outcomes related by [R] and in twin histories. *)
Definition alike {rt : PyRuntime} (c1 c2 : config) (w1 w2 : world)
    {A : Type} (R : A -> A -> Prop) (m1 m2 : M A) : Prop :=
  forall tr1 tr2,
    Forall2 (twin c1 c2) tr1 tr2 ->
    Forall2 (twin c1 c2) (snd (m1 w1 tr1)) (snd (m2 w2 tr2))
    /\ same_outcome R (fst (m1 w1 tr1)) (fst (m2 w2 tr2)).

(** A computation that writes nothing to the console. *)
Definition quiet {rt : PyRuntime} {A : Type} (m : M A) : Prop :=
  forall w tr, printed (snd (m w tr)) = printed tr.

(** Two configurations that each hold a secret (not [None], not empty) and
    differ at most in it. *)
Definition same_but_secret (c1 c2 : config) : Prop :=
  API_KEY c1 = API_KEY c2 /\ API_PASSPHRASE c1 = API_PASSPHRASE c2
  /\ BASE_URL c1 = BASE_URL c2
  /\ is_falsy (API_SECRET c1) = false /\ is_falsy (API_SECRET c2) = false.

(** ** An exchange that verifies signatures *)

(** [s[n:]] *)
Fixpoint string_drop (n : nat) (s : string) : string :=
  match n, s with
  | O, _ => s
  | S n', String _ s' => string_drop n' s'
  | S _, EmptyString => EmptyString
  end.

(** Whether [hdrs] carry the signature that the holder of the secret of
    [c] computes for the timestamp they carry and the given method, path
    and body. *)
Definition signature_valid {rt : PyRuntime} (c : config) (hdrs : headers)
    (method path body : string) : bool :=
  match assoc "OK-ACCESS-SIGN" hdrs, assoc "OK-ACCESS-TIMESTAMP" hdrs with
  | Some signature, Some timestamp =>
      String.eqb signature
        (okx_signature (text (API_SECRET c)) timestamp method path body)
  | _, _ => false
  end.

(** Whether the exchange that knows the credentials [c] accepts a
    request: one without headers passes, a signed one passes when its
    signature is valid for what the request sends. *)
Definition accepts {rt : PyRuntime} (c : config) (e : event) : bool :=
  let path_of url := string_drop (String.length (text (BASE_URL c))) url in
  match e with
  | HttpGet url (Some hdrs) => signature_valid c hdrs "GET" (path_of url) ""
  | HttpPost url hdrs content =>
      signature_valid c hdrs "POST" (path_of url) content
  | _ => true
  end.

(** * Scenarios

    Concrete configurations, exchanges and collaborators on the reference
    runtime, for the examples that accompany the properties. *)

Module Scenario.

Definition rt : PyRuntime := Reference.runtime.

Definition cfg : config := {|
  API_KEY := Some "key-1";
  API_SECRET := Some "secret-1";
  API_PASSPHRASE := Some "phrase-1";
  BASE_URL := Some "https://www.okx.com"
|}.

Definition cfg_no_secret : config := {|
  API_KEY := Some "key-1";
  API_SECRET := None;
  API_PASSPHRASE := Some "phrase-1";
  BASE_URL := Some "https://www.okx.com"
|}.

Definition cfg_other_secret : config := {|
  API_KEY := Some "key-1";
  API_SECRET := Some "secret-2";
  API_PASSPHRASE := Some "phrase-1";
  BASE_URL := Some "https://www.okx.com"
|}.

Definition replied (body : json Reference.dec) : http_outcome (rt := rt) :=
  Responded (Build_response (rt := rt) true (Some body)).

Definition time_reply : http_outcome (rt := rt) :=
  replied (JObj [ ("code", JStr "0");
                  ("data", JArr [ JObj [ ("ts", JStr "1717763696789") ] ]) ]).

Definition held (ccy availBal : string) : json Reference.dec :=
  JObj [ ("ccy", JStr ccy); ("availBal", JStr availBal) ].

Definition balance_reply (accounts : list (json Reference.dec))
  : http_outcome (rt := rt) :=
  replied (JObj [ ("code", JStr "0"); ("data", JArr accounts) ]).

Definition account (details : list (json Reference.dec))
  : json Reference.dec :=
  JObj [ ("totalEq", JStr "1000"); ("details", JArr details) ].

Definition wallet : http_outcome (rt := rt) :=
  balance_reply [ account [ held "ETH" "1"; held "USDT" "50" ] ].

Definition order_reply : http_outcome (rt := rt) :=
  replied (JObj [ ("code", JStr "0");
                  ("data", JArr [ JObj [ ("ordId", JStr "312269865356374016") ] ]) ]).

(** An exchange that gives its replies in order, one per request, and
    drops the connection once they are used up. *)
Definition scripted (replies : list (http_outcome (rt := rt)))
  : world (rt := rt) :=
  fun tr => nth (length (network_calls tr) - 1) replies ConnectFailed.

(** An exchange that serves a whole order placement. *)
Definition exchange : world (rt := rt) :=
  scripted [ time_reply; wallet; time_reply; order_reply ].

(** An exchange whose connection drops once the balance has been told. *)
Definition dropping : world (rt := rt) :=
  scripted [ time_reply; wallet ].

(** An exchange that knows the credentials [c]: it answers from its
    script as long as every request so far was signed with the secret of
    [c], and with an error status otherwise. *)
Definition verifying (c : config) (replies : list (http_outcome (rt := rt)))
  : world (rt := rt) :=
  fun tr =>
    if forallb (accepts (rt := rt) c) tr then scripted replies tr
    else Responded (Build_response (rt := rt) false None).

(** A collaborator that accepts and proposes [size]. *)
Definition accepting (size : string) : Context :=
  {| elicit_reply := fun _ =>
       ElicitReturned
         {| action := "accept";
            data := Some {| tryAgain := true; newSize := size |} |} |}.

(** A collaborator that declines. *)
Definition declining : Context :=
  {| elicit_reply := fun _ =>
       ElicitReturned {| action := "decline"; data := None |} |}.

End Scenario.

(** * Properties *)

(** ** Strings *)

Lemma append_length (a b : string) :
  String.length (a ++ b) = (String.length a + String.length b)%nat.
Proof.
  induction a as [|c a IH]; simpl; [reflexivity | now rewrite IH].
Qed.

Lemma append_assoc (a b c : string) : (a ++ b) ++ c = a ++ (b ++ c).
Proof.
  induction a as [|x a IH]; simpl; [reflexivity | now rewrite IH].
Qed.

Lemma append_cancel_l (x a b : string) : x ++ a = x ++ b -> a = b.
Proof.
  induction x as [|c x IH]; simpl; intros H; [exact H |].
  injection H as H. auto.
Qed.

Lemma append_cancel_r (x : string) :
  forall a b : string, a ++ x = b ++ x -> a = b.
Proof.
  induction a as [|c a IH]; intros [|d b] H; simpl in H.
  - reflexivity.
  - apply (f_equal String.length) in H. simpl in H.
    rewrite append_length in H. lia.
  - apply (f_equal String.length) in H. simpl in H.
    rewrite append_length in H. lia.
  - injection H as Hc H. subst d. f_equal. now apply IH.
Qed.

Lemma startswith_append (p rest : string) : startswith p (p ++ rest) = true.
Proof.
  unfold startswith. induction p as [|c p IH]; simpl.
  - now destruct rest.
  - destruct (ascii_dec c c); [exact IH | contradiction].
Qed.

Lemma contains_middle (before needle after : string) :
  contains needle (before ++ needle ++ after).
Proof. now exists before, after. Qed.

Lemma split_nonempty (sep : ascii) (s : string) : split sep s <> [].
Proof.
  induction s as [|c s IH]; simpl; [discriminate |].
  destruct (Ascii.eqb c sep); [discriminate |].
  destruct (split sep s); [contradiction | discriminate].
Qed.

(** A string splits into one more piece than it has separators. *)
Lemma split_length (sep : ascii) (s : string) :
  length (split sep s) = S (count_char sep s).
Proof.
  induction s as [|c s IH]; simpl; [reflexivity |].
  destruct (Ascii.eqb c sep); simpl; [now rewrite IH |].
  destruct (split sep s) as [|piece pieces] eqn:E; simpl in *; [discriminate |].
  exact IH.
Qed.

Lemma unpack_pair_ok (pieces : list string) (p : string * string) :
  unpack_pair pieces = Ok p <-> pieces = [fst p; snd p].
Proof.
  destruct p as [a b]. simpl.
  destruct pieces as [|x [|y [|z rest]]]; simpl; split; intros H;
    try discriminate; now inversion H.
Qed.

Lemma unpack_pair_raises (pieces : list string) :
  length pieces <> 2%nat -> unpack_pair pieces = Raise (ValueError None).
Proof.
  destruct pieces as [|x [|y [|z rest]]]; simpl; intros H;
    try reflexivity; now contradiction H.
Qed.

(** ** Known answers of the primitives *)

Example sha256_abc :
  SHA256.digest (utf8_bytes "abc")
  = [ 0xba; 0x78; 0x16; 0xbf; 0x8f; 0x01; 0xcf; 0xea;
      0x41; 0x41; 0x40; 0xde; 0x5d; 0xae; 0x22; 0x23;
      0xb0; 0x03; 0x61; 0xa3; 0x96; 0x17; 0x7a; 0x9c;
      0xb4; 0x10; 0xff; 0x61; 0xf2; 0x00; 0x15; 0xad ]%Z.
Proof. vm_compute. reflexivity. Qed.

(** RFC 4231, test case 2. *)
Example hmac_sha256_rfc4231_2 :
  Base64.b64encode
    (HMAC.hmac_sha256 (utf8_bytes "Jefe")
                      (utf8_bytes "what do ya want for nothing?"))
  = "W9zBRr9gdU5qBCQmCJV1x1oAPwidJzmDnexYuWTsOEM=".
Proof. vm_compute. reflexivity. Qed.

Example signature_of_balance_query :
  get_okx_signature (rt := Scenario.rt) Scenario.cfg
                    "2024-06-07T12:34:56.789Z" "GET"
                    "/api/v5/account/balance" ""
  = Ok "ZMq91hzfQvThOZFGlBs9wCZl+F5iEcjjrDiZA0PdMPo=".
Proof. vm_compute. reflexivity. Qed.

(** ** Runs of the signing tools *)

Ltac by_cases_on_run :=
  repeat match goal with
         | |- context [match ?x with _ => _ end] =>
             lazymatch x with
             | context [match _ with _ => _ end] => fail
             | _ => destruct x eqn:?
             end
         end;
  try reflexivity.

Section Runs.

Context {rt : PyRuntime}.

Variable cfg : config.

Lemma is_falsy_stamp (s : string) : is_falsy (Some (s ++ "Z")) = false.
Proof. destruct s; reflexivity. Qed.

(** The clock fetch issues one request, without credentials, and what it
    returns is never empty. *)
Lemma server_time_run (w : world) (tr : list event) :
  exists r,
    get_okx_server_time cfg w tr = (r, (tr ++ [clock_request cfg])%list)
    /\ forall ts, r = Ok ts -> is_falsy (Some ts) = false.
Proof.
  unfold get_okx_server_time, bind, client_get, request, raise_for_status,
    response_json, lift, ret, raise, clock_request, clock_url.
  destruct (w _) as [|resp]; [eexists; split; [reflexivity | discriminate] |].
  destruct (is_success resp); [| eexists; split; [reflexivity | discriminate]].
  destruct (json_body resp) as [body|]; simpl;
    [| eexists; split; [reflexivity | discriminate]].
  destruct (getitem_key body "data") as [items|]; simpl;
    [| eexists; split; [reflexivity | discriminate]].
  destruct (getitem_0 items) as [item|]; simpl;
    [| eexists; split; [reflexivity | discriminate]].
  destruct (getitem_key item "ts") as [ts|]; simpl;
    [| eexists; split; [reflexivity | discriminate]].
  destruct (py_int ts) as [millis|]; simpl;
    [| eexists; split; [reflexivity | discriminate]].
  destruct (strftime_utc_ms millis) as [stamp|]; simpl;
    [| eexists; split; [reflexivity | discriminate]].
  eexists; split; [reflexivity |].
  intros ts' H. injection H as <-. apply is_falsy_stamp.
Qed.

Lemma signature_ok (ts m p b : string) :
  is_falsy (API_SECRET cfg) = false ->
  get_okx_signature cfg ts m p b
  = Ok (okx_signature (text (API_SECRET cfg)) ts m p b).
Proof.
  unfold get_okx_signature, okx_signature, signed_message.
  destruct (API_SECRET cfg) as [[|c s]|]; simpl; intros H;
    try discriminate; reflexivity.
Qed.

Lemma signature_raises (ts m p b : string) :
  is_falsy (API_SECRET cfg) = true ->
  get_okx_signature cfg ts m p b
  = Raise (ValueError (Some "API_SECRET not found in environment variables.")).
Proof.
  unfold get_okx_signature.
  destruct (API_SECRET cfg) as [[|c s]|]; simpl; intros H;
    try discriminate; reflexivity.
Qed.

Lemma credentials_complete :
  credential_absent cfg = false ->
  is_falsy (API_KEY cfg) = false /\ is_falsy (API_SECRET cfg) = false
  /\ is_falsy (API_PASSPHRASE cfg) = false.
Proof.
  unfold credential_absent. intros H.
  apply orb_false_iff in H as [H Hp]. apply orb_false_iff in H as [Hk Hs].
  auto.
Qed.

(** With a timestamp in hand, building the headers issues no request. *)
Lemma headers_run_ok (m p b ts : string) (w : world) (tr : list event) :
  credential_absent cfg = false ->
  is_falsy (Some ts) = false ->
  get_okx_headers cfg m p b (Some ts) w tr
  = (Ok (signed_headers cfg m p b ts), tr).
Proof.
  intros Hc Hts. destruct (credentials_complete Hc) as (Hk & Hs & Hp).
  unfold get_okx_headers. rewrite Hk, Hp, Hts. simpl.
  unfold bind, ret, lift. rewrite (signature_ok _ _ _ _ Hs). reflexivity.
Qed.

Lemma headers_run_absent (m p b ts : string) (w : world) (tr : list event) :
  credential_absent cfg = true ->
  is_falsy (Some ts) = false ->
  exists msg,
    missing_credential_message msg
    /\ get_okx_headers cfg m p b (Some ts) w tr
       = (Raise (ValueError (Some msg)), tr).
Proof.
  intros Hc Hts. unfold get_okx_headers.
  destruct (is_falsy (API_KEY cfg) || is_falsy (API_PASSPHRASE cfg)) eqn:Hkp.
  - eexists. split; [left; reflexivity | reflexivity].
  - rewrite Hts. unfold bind, ret, lift.
    assert (Hs : is_falsy (API_SECRET cfg) = true).
    { unfold credential_absent in Hc.
      apply orb_false_iff in Hkp as [Hk Hp]. rewrite Hk, Hp in Hc.
      simpl in Hc. now rewrite orb_false_r in Hc. }
    rewrite (signature_raises _ _ _ _ Hs).
    eexists. split; [right; reflexivity | reflexivity].
Qed.

(** A signed exchange starts with the clock fetch; the signed request
    follows only when the time came back and no credential is missing. *)
Lemma signed_exchange_run (m p b : string) (req : headers -> event)
    (w : world) (tr : list event) :
  exists r,
    get_okx_server_time cfg w tr = (r, (tr ++ [clock_request cfg])%list)
    /\ match r with
       | Raise e =>
           signed_exchange cfg m p b req w tr
           = (Raise e, (tr ++ [clock_request cfg])%list)
       | Ok ts =>
           if credential_absent cfg then
             exists msg,
               missing_credential_message msg
               /\ signed_exchange cfg m p b req w tr
                  = (Raise (ValueError (Some msg)),
                     (tr ++ [clock_request cfg])%list)
           else
             exists r',
               signed_exchange cfg m p b req w tr
               = (r', (tr ++ [clock_request cfg;
                              req (signed_headers cfg m p b ts)])%list)
       end.
Proof.
  destruct (server_time_run w tr) as (r & Hrun & Hts).
  exists r. split; [exact Hrun |].
  unfold signed_exchange, bind. rewrite Hrun.
  destruct r as [ts|e]; [| reflexivity].
  specialize (Hts ts eq_refl).
  destruct (credential_absent cfg) eqn:Hc.
  - destruct (headers_run_absent m p b ts w
                (tr ++ [clock_request cfg])%list Hc Hts)
      as (msg & Hmsg & Hh).
    exists msg. split; [exact Hmsg |]. now rewrite Hh.
  - rewrite (headers_run_ok m p b ts w _ Hc Hts).
    unfold request, raise_for_status, response_json, lift, ret, raise.
    rewrite <- app_assoc. simpl.
    destruct (w _) as [|resp]; [eexists; reflexivity |].
    destruct (is_success resp); eexists; reflexivity.
Qed.

Lemma fetch_balance_unfold :
  fetch_balance cfg
  = signed_exchange cfg "GET" "/api/v5/account/balance" ""
      (fun hdrs => HttpGet (balance_url cfg) (Some hdrs)).
Proof. reflexivity. Qed.

Lemma signed_get_unfold (path : string) (w : world) (tr : list event) :
  signed_get cfg path w tr
  = map_result json_dumps_indent2
      (signed_exchange cfg "GET" path ""
         (fun hdrs => HttpGet (text (BASE_URL cfg) ++ path) (Some hdrs)) w tr).
Proof.
  unfold signed_get, signed_exchange, map_result, bind, client_get,
    response_json, lift, ret.
  by_cases_on_run.
Qed.

Lemma submit_order_unfold (instId side sz ordType tdMode : string)
    (w : world) (tr : list event) :
  submit_order cfg instId side sz ordType tdMode w tr
  = map_result json_dumps_indent2
      (signed_exchange cfg "POST" order_path
         (json_dumps (order_body instId tdMode side ordType sz))
         (fun hdrs =>
            HttpPost (order_url cfg) hdrs
                     (json_dumps (order_body instId tdMode side ordType sz)))
         w tr).
Proof.
  unfold submit_order, signed_exchange, map_result, bind, client_post,
    response_json, lift, ret, order_url.
  by_cases_on_run.
Qed.

(** [create_order] is the balance check followed by the decision. *)
Lemma create_order_unfold (instId side sz ordType tdMode : string)
    (ctx : option Context) (w : world) (tr : list event) :
  create_order cfg instId side sz ordType tdMode ctx w tr
  = match check_balance cfg instId side sz w tr with
    | (Ok checked, tr0) =>
        decide cfg instId side sz ordType tdMode ctx checked w tr0
    | (Raise e, tr0) => (Raise e, tr0)
    end.
Proof.
  unfold create_order, check_balance, fetch_balance, decide, bind, lift, ret.
  by_cases_on_run.
Qed.

Lemma fetch_balance_ok (w : world) (tr tr0 : list event)
    (balance_data : json pyfloat) :
  fetch_balance cfg w tr = (Ok balance_data, tr0) ->
  credential_absent cfg = false
  /\ exists ts,
       get_okx_server_time cfg w tr = (Ok ts, (tr ++ [clock_request cfg])%list)
       /\ tr0 = (tr ++ [clock_request cfg; balance_request cfg ts])%list.
Proof.
  rewrite fetch_balance_unfold. intros H.
  destruct (signed_exchange_run "GET" "/api/v5/account/balance" ""
              (fun hdrs => HttpGet (balance_url cfg) (Some hdrs)) w tr)
    as (r & Hclock & Hrun).
  destruct r as [ts|e]; [| rewrite Hrun in H; discriminate].
  destruct (credential_absent cfg).
  - destruct Hrun as (msg & _ & Hrun). rewrite Hrun in H. discriminate.
  - destruct Hrun as (r' & Hrun). rewrite Hrun in H. injection H as _ <-.
    split; [reflexivity |]. exists ts. split; [exact Hclock | reflexivity].
Qed.

(** Whatever its outcome, the balance query sends one or two requests. *)
Lemma fetch_balance_trace (w : world) (tr : list event) :
  snd (fetch_balance cfg w tr) = (tr ++ [clock_request cfg])%list
  \/ exists ts,
       snd (fetch_balance cfg w tr)
       = (tr ++ [clock_request cfg; balance_request cfg ts])%list.
Proof.
  rewrite fetch_balance_unfold.
  destruct (signed_exchange_run "GET" "/api/v5/account/balance" ""
              (fun hdrs => HttpGet (balance_url cfg) (Some hdrs)) w tr)
    as (r & _ & Hrun).
  destruct r as [ts|e]; [| rewrite Hrun; now left].
  destruct (credential_absent cfg).
  - destruct Hrun as (msg & _ & ->). now left.
  - destruct Hrun as (r' & ->). right. now exists ts.
Qed.

Lemma check_balance_ok (instId side sz : string) (w : world)
    (tr tr0 : list event) (ccy : string) (available requested : pyfloat) :
  check_balance cfg instId side sz w tr = (Ok (ccy, available, requested), tr0) ->
  exists balance_data base_ccy quote_ccy,
    fetch_balance cfg w tr = (Ok balance_data, tr0)
    /\ split "-" instId = [base_ccy; quote_ccy]
    /\ ccy = (if String.eqb side "buy" then quote_ccy else base_ccy)
    /\ resolve_available balance_data ccy = Ok available
    /\ float_of_str sz = Some requested.
Proof.
  unfold check_balance, bind, lift, ret. intros H.
  destruct (fetch_balance cfg w tr) as [[balance_data|e] t]; [| discriminate].
  destruct (unpack_pair (split "-" instId)) as [[base_ccy quote_ccy]|e] eqn:Hp;
    [| discriminate].
  apply unpack_pair_ok in Hp. simpl in *.
  destruct (resolve_available balance_data _) as [a|e] eqn:Ha; [| discriminate].
  destruct (float_of_str sz) as [q|] eqn:Hq; simpl in H; [| discriminate].
  injection H as <- <- <- <-.
  exists balance_data, base_ccy, quote_ccy. auto.
Qed.

(** The balance check adds nothing to what the balance query sent. *)
Lemma check_balance_trace (instId side sz : string) (w : world)
    (tr : list event) :
  snd (check_balance cfg instId side sz w tr) = snd (fetch_balance cfg w tr).
Proof.
  unfold check_balance, bind, lift, ret.
  destruct (fetch_balance cfg w tr) as [[balance_data|e] t]; [| reflexivity].
  by_cases_on_run.
Qed.

Lemma submit_order_run (instId side sz ordType tdMode : string)
    (w : world) (tr : list event) :
  credential_absent cfg = false ->
  exists r,
    get_okx_server_time cfg w tr = (r, (tr ++ [clock_request cfg])%list)
    /\ match r with
       | Raise e =>
           submit_order cfg instId side sz ordType tdMode w tr
           = (Raise e, (tr ++ [clock_request cfg])%list)
       | Ok ts =>
           exists r',
             submit_order cfg instId side sz ordType tdMode w tr
             = (r', (tr ++ [clock_request cfg;
                            order_request cfg instId side sz ordType tdMode ts])%list)
       end.
Proof.
  intros Hc.
  destruct (signed_exchange_run "POST" order_path
              (json_dumps (order_body instId tdMode side ordType sz))
              (fun hdrs =>
                 HttpPost (order_url cfg) hdrs
                   (json_dumps (order_body instId tdMode side ordType sz)))
              w tr) as (r & Hclock & Hrun).
  exists r. split; [exact Hclock |].
  rewrite submit_order_unfold.
  destruct r as [ts|e]; [| now rewrite Hrun].
  rewrite Hc in Hrun. destruct Hrun as (r' & Hrun). rewrite Hrun.
  destruct r' as [j|e]; eexists; reflexivity.
Qed.

End Runs.

Lemma append_nil_r (s : string) : s ++ "" = s.
Proof. induction s as [|c s IH]; simpl; [reflexivity | now rewrite IH]. Qed.

Lemma accepted_some (r : ElicitationResult) (d : OrderElicitation) :
  accepted r = Some d
  <-> action r = "accept" /\ data r = Some d /\ tryAgain d = true.
Proof.
  unfold accepted. destruct (String.eqb_spec (action r) "accept") as [Ha|Ha].
  - destruct (data r) as [d'|]; [destruct (tryAgain d') eqn:Ht |].
    + split; [intros H; injection H as <-; auto |].
      intros (_ & H & _). exact H.
    + split; [discriminate |]. intros (_ & H & Ht'). injection H as <-.
      congruence.
    + split; [discriminate |]. intros (_ & H & _). discriminate.
  - split; [discriminate |]. intros (H & _). contradiction.
Qed.

Lemma accepted_none (r : ElicitationResult) :
  accepted r = None
  <-> ~ (action r = "accept"
         /\ exists d, data r = Some d /\ tryAgain d = true).
Proof.
  split.
  - intros H (Ha & d & Hd & Ht).
    assert (accepted r = Some d) by (apply accepted_some; auto). congruence.
  - intros H. destruct (accepted r) as [d|] eqn:E; [| reflexivity].
    apply accepted_some in E as (Ha & Hd & Ht). exfalso. apply H. eauto.
Qed.

Lemma reference_order_consistent : float_order_consistent Reference.runtime.
Proof.
  intros x y. simpl. unfold Reference.dec_le, Reference.dec_gt. intros H.
  apply Z.leb_le in H. now apply Z.ltb_ge.
Qed.

(** ** The order workflow *)

(** C1, as stated, at a concrete run: 0.01 ETH is to be sold, 1 ETH is
    available, and the connection drops after the balance query.  The
    server-time fetch that opens the submission raises and no order is
    posted, where the claim has exactly one. *)
Lemma C1_counterexample :
  fst (run (rt := Scenario.rt)
         (check_balance Scenario.cfg "ETH-USDT" "sell" "0.01")
         Scenario.dropping)
  = Ok ("ETH", Reference.Build_dec 1 0, Reference.Build_dec 1 2)
  /\ float_le (PyRuntime := Scenario.rt)
       (Reference.Build_dec 1 2) (Reference.Build_dec 1 0) = true
  /\ posted (trace (rt := Scenario.rt)
               (create_order Scenario.cfg "ETH-USDT" "sell" "0.01"
                             "market" "cash" None)
               Scenario.dropping) = []
  /\ outcome (rt := Scenario.rt)
       (create_order Scenario.cfg "ETH-USDT" "sell" "0.01"
                     "market" "cash" None)
       Scenario.dropping = Raise ConnectError.
Proof. vm_compute. repeat split. Qed.

(** C1 (amended): when the requested size, read by [float], is at most the
    available balance resolved for the checked currency (the quote currency
    if [side] is "buy", the base currency otherwise), [ctx.elicit] is never
    invoked; if the server-time fetch that opens the submission succeeds,
    exactly one order is posted and its body carries the original [sz]; if
    that fetch raises, the invocation raises the same error and no order is
    posted. *)
Theorem C1_sufficient_balance_submits_original_size
    (rt : PyRuntime) (cfg : config) (w : world)
    (instId side sz ordType tdMode : string) (ctx : option Context)
    (ccy : string) (available requested : pyfloat) (tr0 : list event) :
  float_order_consistent rt ->
  run (check_balance cfg instId side sz) w
  = (Ok (ccy, available, requested), tr0) ->
  float_le requested available = true ->
  let order := create_order cfg instId side sz ordType tdMode ctx in
  (exists base_ccy quote_ccy,
      split "-" instId = [base_ccy; quote_ccy]
      /\ ccy = if String.eqb side "buy" then quote_ccy else base_ccy)
  /\ elicited (trace order w) = []
  /\ (forall ts,
        fst (get_okx_server_time cfg w tr0) = Ok ts ->
        posted (trace order w)
        = [(order_url cfg,
            json_dumps (order_body instId tdMode side ordType sz))])
  /\ (forall e,
        fst (get_okx_server_time cfg w tr0) = Raise e ->
        outcome order w = Raise e /\ posted (trace order w) = []).
Proof.
  intros Hord Hcheck Hle order. unfold run in Hcheck.
  destruct (check_balance_ok cfg _ _ _ _ _ _ _ _ _ Hcheck)
    as (j & base_ccy & quote_ccy & Hf & Hsplit & Hccy & _ & _).
  destruct (fetch_balance_ok cfg _ _ _ _ Hf) as (Hc & ts0 & _ & Htr0).
  simpl in Htr0. subst tr0.
  split; [now exists base_ccy, quote_ccy |].
  unfold trace, outcome, run, order.
  rewrite create_order_unfold, Hcheck. unfold decide.
  rewrite (Hord _ _ Hle).
  destruct (submit_order_run cfg instId side sz ordType tdMode w
              [clock_request cfg; balance_request cfg ts0] Hc)
    as (r & Hclock & Hrun).
  simpl in Hclock, Hrun. rewrite Hclock. simpl fst.
  destruct r as [ts|e].
  - destruct Hrun as (r' & ->). simpl.
    split; [reflexivity |]. split; [reflexivity | discriminate].
  - rewrite Hrun. simpl. split; [reflexivity |].
    split; [discriminate |]. intros e' He. injection He as <-. auto.
Qed.

(** The amended C1 on the second example of the specification: selling
    0.01 ETH with 1 ETH available posts the order unchanged. *)
Lemma C1_witness :
  elicited (trace (rt := Scenario.rt)
              (create_order Scenario.cfg "ETH-USDT" "sell" "0.01"
                            "market" "cash" None)
              Scenario.exchange) = []
  /\ posted (trace (rt := Scenario.rt)
               (create_order Scenario.cfg "ETH-USDT" "sell" "0.01"
                             "market" "cash" None)
               Scenario.exchange)
     = [(order_url Scenario.cfg,
         json_dumps (PyRuntime := Scenario.rt)
           (order_body "ETH-USDT" "cash" "sell" "market" "0.01"))].
Proof.
  destruct (C1_sufficient_balance_submits_original_size
              Scenario.rt Scenario.cfg Scenario.exchange
              "ETH-USDT" "sell" "0.01" "market" "cash" None
              "ETH" (Reference.Build_dec 1 0) (Reference.Build_dec 1 2)
              (snd (run (rt := Scenario.rt)
                      (check_balance Scenario.cfg "ETH-USDT" "sell" "0.01")
                      Scenario.exchange))
              reference_order_consistent)
    as (_ & Hquiet & Hposted & _).
  - vm_compute. reflexivity.
  - vm_compute. reflexivity.
  - split; [exact Hquiet |].
    apply (Hposted "2024-06-07T12:34:56.789Z"). vm_compute. reflexivity.
Defined.

(** C2: when the requested size exceeds the available balance, a
    collaborator is there and its answer is anything but an accept whose
    data has [tryAgain] set, no order is posted and the invocation returns
    a string that starts with "[CANCELLED]". *)
Theorem C2_declined_negotiation_cancels
    (rt : PyRuntime) (cfg : config) (w : world)
    (instId side sz ordType tdMode : string) (ctx : Context)
    (ccy : string) (available requested : pyfloat) (tr0 : list event)
    (r : ElicitationResult) :
  run (check_balance cfg instId side sz) w
  = (Ok (ccy, available, requested), tr0) ->
  float_gt requested available = true ->
  elicit_reply ctx (elicit_message ccy available sz) = ElicitReturned r ->
  ~ (action r = "accept" /\ exists d, data r = Some d /\ tryAgain d = true) ->
  let order := create_order cfg instId side sz ordType tdMode (Some ctx) in
  posted (trace order w) = []
  /\ exists s, outcome order w = Ok s /\ startswith "[CANCELLED]" s = true.
Proof.
  intros Hcheck Hgt Hreply Hno order. unfold run in Hcheck.
  destruct (check_balance_ok cfg _ _ _ _ _ _ _ _ _ Hcheck)
    as (j & base_ccy & quote_ccy & Hf & _).
  destruct (fetch_balance_ok cfg _ _ _ _ Hf) as (_ & ts0 & _ & Htr0).
  simpl in Htr0. subst tr0.
  apply accepted_none in Hno.
  unfold trace, outcome, run, order.
  rewrite create_order_unfold, Hcheck. unfold decide.
  rewrite Hgt. unfold bind, elicit. rewrite Hreply, Hno. simpl.
  split; [reflexivity |].
  exists cancelled_message. split; reflexivity.
Qed.

(** C2 on a run: 100 USDT are asked for a buy, 50 are available, the
    collaborator declines. *)
Lemma C2_witness :
  posted (trace (rt := Scenario.rt)
            (create_order Scenario.cfg "BTC-USDT" "buy" "100" "market" "cash"
                          (Some Scenario.declining))
            Scenario.exchange) = []
  /\ exists s,
       outcome (rt := Scenario.rt)
         (create_order Scenario.cfg "BTC-USDT" "buy" "100" "market" "cash"
                       (Some Scenario.declining))
         Scenario.exchange = Ok s
       /\ startswith "[CANCELLED]" s = true.
Proof.
  apply (C2_declined_negotiation_cancels
           Scenario.rt Scenario.cfg Scenario.exchange
           "BTC-USDT" "buy" "100" "market" "cash" Scenario.declining
           "USDT" (Reference.Build_dec 50 0) (Reference.Build_dec 100 0)
           (snd (run (rt := Scenario.rt)
                   (check_balance Scenario.cfg "BTC-USDT" "buy" "100")
                   Scenario.exchange))
           {| action := "decline"; data := None |}).
  - vm_compute. reflexivity.
  - vm_compute. reflexivity.
  - reflexivity.
  - simpl. intros (H & _). discriminate.
Defined.

(** C3, as stated, at a concrete run: 100 USDT are asked for a buy, 50 are
    available, the collaborator accepts with the size 0.001, and the
    connection drops after the balance query.  No order is posted, where
    the claim has exactly one. *)
Lemma C3_counterexample :
  fst (run (rt := Scenario.rt)
         (check_balance Scenario.cfg "BTC-USDT" "buy" "100")
         Scenario.dropping)
  = Ok ("USDT", Reference.Build_dec 50 0, Reference.Build_dec 100 0)
  /\ float_gt (PyRuntime := Scenario.rt)
       (Reference.Build_dec 100 0) (Reference.Build_dec 50 0) = true
  /\ elicit_reply (Scenario.accepting "0.001")
       (elicit_message (rt := Scenario.rt) "USDT"
          (Reference.Build_dec 50 0) "100")
     = ElicitReturned
         {| action := "accept";
            data := Some {| tryAgain := true; newSize := "0.001" |} |}
  /\ posted (trace (rt := Scenario.rt)
               (create_order Scenario.cfg "BTC-USDT" "buy" "100"
                             "market" "cash"
                             (Some (Scenario.accepting "0.001")))
               Scenario.dropping) = []
  /\ outcome (rt := Scenario.rt)
       (create_order Scenario.cfg "BTC-USDT" "buy" "100" "market" "cash"
                     (Some (Scenario.accepting "0.001")))
       Scenario.dropping = Raise ConnectError.
Proof. vm_compute. repeat split. Qed.

(** C3 (amended): when the requested size exceeds the available balance
    and the collaborator accepts, with [tryAgain] set, a replacement size,
    the run goes on with the server-time fetch alone: no balance query
    follows the elicitation, whatever comes of that fetch.  If the fetch
    succeeds, exactly one order is posted and its body carries the
    replacement size, the whole run being time, balance, elicitation,
    time, order; if it raises, the invocation raises the same error, the
    run ends there (time, balance, elicitation, time) and no order is
    posted. *)
Theorem C3_accepted_size_is_submitted_without_recheck
    (rt : PyRuntime) (cfg : config) (w : world)
    (instId side sz ordType tdMode : string) (ctx : Context)
    (ccy : string) (available requested : pyfloat) (tr0 : list event)
    (r : ElicitationResult) (d : OrderElicitation) :
  run (check_balance cfg instId side sz) w
  = (Ok (ccy, available, requested), tr0) ->
  float_gt requested available = true ->
  elicit_reply ctx (elicit_message ccy available sz) = ElicitReturned r ->
  action r = "accept" -> data r = Some d -> tryAgain d = true ->
  let order := create_order cfg instId side sz ordType tdMode (Some ctx) in
  let asked := (tr0 ++ [Elicit (elicit_message ccy available sz)])%list in
  queried tr0 = [clock_url cfg; balance_url cfg]
  /\ (forall ts,
        fst (get_okx_server_time cfg w asked) = Ok ts ->
        trace order w
        = (asked
             ++ [clock_request cfg;
                 order_request cfg instId side (newSize d) ordType tdMode ts])%list
        /\ posted (trace order w)
           = [(order_url cfg,
               json_dumps (order_body instId tdMode side ordType (newSize d)))]
        /\ queried (trace order w)
           = [clock_url cfg; balance_url cfg; clock_url cfg])
  /\ (forall e,
        fst (get_okx_server_time cfg w asked) = Raise e ->
        outcome order w = Raise e
        /\ trace order w = (asked ++ [clock_request cfg])%list
        /\ posted (trace order w) = []
        /\ queried (trace order w)
           = [clock_url cfg; balance_url cfg; clock_url cfg]).
Proof.
  intros Hcheck Hgt Hreply Ha Hd Ht order asked. unfold run in Hcheck.
  destruct (check_balance_ok cfg _ _ _ _ _ _ _ _ _ Hcheck)
    as (j & base_ccy & quote_ccy & Hf & _).
  destruct (fetch_balance_ok cfg _ _ _ _ Hf) as (Hc & ts0 & _ & Htr0).
  simpl in Htr0. subst tr0.
  assert (Hacc : accepted r = Some d) by (apply accepted_some; auto).
  split; [reflexivity |].
  unfold trace, outcome, run, order.
  rewrite create_order_unfold, Hcheck. unfold decide.
  rewrite Hgt. unfold bind, elicit. rewrite Hreply, Hacc.
  destruct (submit_order_run cfg instId side (newSize d) ordType tdMode w
              asked Hc) as (r1 & Hclock & Hrun).
  subst asked. simpl in Hclock, Hrun |- *. rewrite Hclock. simpl fst.
  destruct r1 as [ts|e].
  - destruct Hrun as (r' & ->). simpl.
    split; [| discriminate]. intros ts' Hts. injection Hts as <-.
    repeat split.
  - rewrite Hrun. simpl. split; [discriminate |].
    intros e' He. injection He as <-. repeat split.
Qed.

(** The amended C3 on a run: the collaborator replaces 100 by 0.001. *)
Lemma C3_witness :
  posted (trace (rt := Scenario.rt)
            (create_order Scenario.cfg "BTC-USDT" "buy" "100" "market" "cash"
                          (Some (Scenario.accepting "0.001")))
            Scenario.exchange)
  = [(order_url Scenario.cfg,
      json_dumps (PyRuntime := Scenario.rt)
        (order_body "BTC-USDT" "cash" "buy" "market" "0.001"))]
  /\ queried (trace (rt := Scenario.rt)
                (create_order Scenario.cfg "BTC-USDT" "buy" "100"
                              "market" "cash"
                              (Some (Scenario.accepting "0.001")))
                Scenario.exchange)
     = [clock_url Scenario.cfg; balance_url Scenario.cfg;
        clock_url Scenario.cfg].
Proof.
  destruct (C3_accepted_size_is_submitted_without_recheck
              Scenario.rt Scenario.cfg Scenario.exchange
              "BTC-USDT" "buy" "100" "market" "cash"
              (Scenario.accepting "0.001")
              "USDT" (Reference.Build_dec 50 0) (Reference.Build_dec 100 0)
              (snd (run (rt := Scenario.rt)
                      (check_balance Scenario.cfg "BTC-USDT" "buy" "100")
                      Scenario.exchange))
              {| action := "accept";
                 data := Some {| tryAgain := true; newSize := "0.001" |} |}
              {| tryAgain := true; newSize := "0.001" |})
    as (_ & Hposted & _).
  - vm_compute. reflexivity.
  - vm_compute. reflexivity.
  - reflexivity.
  - reflexivity.
  - reflexivity.
  - reflexivity.
  - destruct (Hposted "2024-06-07T12:34:56.789Z") as (_ & Hp & Hq).
    + vm_compute. reflexivity.
    + split; [exact Hp | exact Hq].
Defined.

(** C4: when the requested size exceeds the available balance and there is
    no collaborator ([ctx] is [None]), no order is posted and the
    invocation returns a string that starts with "[FAILED]" and contains
    the checked currency and the available amount. *)
Theorem C4_no_collaborator_fails
    (rt : PyRuntime) (cfg : config) (w : world)
    (instId side sz ordType tdMode : string)
    (ccy : string) (available requested : pyfloat) (tr0 : list event) :
  run (check_balance cfg instId side sz) w
  = (Ok (ccy, available, requested), tr0) ->
  float_gt requested available = true ->
  let order := create_order cfg instId side sz ordType tdMode None in
  posted (trace order w) = []
  /\ exists s,
       outcome order w = Ok s
       /\ startswith "[FAILED]" s = true
       /\ contains ccy s
       /\ contains (float_str available) s.
Proof.
  intros Hcheck Hgt order. unfold run in Hcheck.
  destruct (check_balance_ok cfg _ _ _ _ _ _ _ _ _ Hcheck)
    as (j & base_ccy & quote_ccy & Hf & _).
  destruct (fetch_balance_ok cfg _ _ _ _ Hf) as (_ & ts0 & _ & Htr0).
  simpl in Htr0. subst tr0.
  unfold trace, outcome, run, order.
  rewrite create_order_unfold, Hcheck. unfold decide.
  rewrite Hgt. simpl.
  split; [reflexivity |].
  exists (failed_message ccy available). split; [reflexivity |].
  unfold failed_message. split; [| split].
  - reflexivity.
  - eexists _, _. reflexivity.
  - exists ("[FAILED] 余额不足，可用" ++ ccy ++ "为"), "".
    rewrite append_nil_r, !append_assoc. reflexivity.
Qed.

(** C4 on a run: 100 USDT are asked for a buy, 50 are available, nobody to
    ask. *)
Lemma C4_witness :
  posted (trace (rt := Scenario.rt)
            (create_order Scenario.cfg "BTC-USDT" "buy" "100" "market" "cash"
                          None)
            Scenario.exchange) = []
  /\ exists s,
       outcome (rt := Scenario.rt)
         (create_order Scenario.cfg "BTC-USDT" "buy" "100" "market" "cash"
                       None)
         Scenario.exchange = Ok s
       /\ startswith "[FAILED]" s = true
       /\ contains "USDT" s
       /\ contains "50.0" s.
Proof.
  apply (C4_no_collaborator_fails
           Scenario.rt Scenario.cfg Scenario.exchange
           "BTC-USDT" "buy" "100" "market" "cash"
           "USDT" (Reference.Build_dec 50 0) (Reference.Build_dec 100 0)
           (snd (run (rt := Scenario.rt)
                   (check_balance Scenario.cfg "BTC-USDT" "buy" "100")
                   Scenario.exchange))).
  - vm_compute. reflexivity.
  - vm_compute. reflexivity.
Defined.

(** ** Missing credentials and malformed instrument ids *)

Section MoreRuns.

Context {rt : PyRuntime}.

Variable cfg : config.

(** With a credential missing, a signed exchange stops after the clock
    fetch. *)
Lemma signed_exchange_absent (m p b : string) (req : headers -> event)
    (w : world) (tr : list event) :
  credential_absent cfg = true ->
  exists e,
    signed_exchange cfg m p b req w tr
    = (Raise e, (tr ++ [clock_request cfg])%list)
    /\ (forall ts,
          fst (get_okx_server_time cfg w tr) = Ok ts ->
          exists msg,
            missing_credential_message msg /\ e = ValueError (Some msg))
    /\ (forall e',
          fst (get_okx_server_time cfg w tr) = Raise e' -> e = e').
Proof.
  intros Hc.
  destruct (signed_exchange_run cfg m p b req w tr) as (r & Hclock & Hrun).
  rewrite Hclock. simpl fst. rewrite Hc in Hrun.
  destruct r as [ts|e].
  - destruct Hrun as (msg & Hmsg & Hrun). exists (ValueError (Some msg)).
    split; [exact Hrun |]. split; [| discriminate].
    intros ts' _. now exists msg.
  - exists e. split; [exact Hrun |]. split; [discriminate |].
    intros e' H. now injection H.
Qed.

Lemma create_order_absent (instId side sz ordType tdMode : string)
    (ctx : option Context) (w : world) (tr : list event) :
  create_order cfg instId side sz ordType tdMode ctx w tr
  = match fetch_balance cfg w tr with
    | (Ok balance_data, tr0) =>
        create_order cfg instId side sz ordType tdMode ctx w tr
    | (Raise e, tr0) => (Raise e, tr0)
    end.
Proof.
  rewrite create_order_unfold. unfold check_balance, bind.
  destruct (fetch_balance cfg w tr) as [[j|e] t]; reflexivity.
Qed.

Lemma invoke_absent (call : tool_call) (w : world) (tr : list event) :
  credential_absent cfg = true ->
  exists e,
    invoke cfg call w tr = (Raise e, (tr ++ [clock_request cfg])%list)
    /\ (forall ts,
          fst (get_okx_server_time cfg w tr) = Ok ts ->
          exists msg,
            missing_credential_message msg /\ e = ValueError (Some msg))
    /\ (forall e',
          fst (get_okx_server_time cfg w tr) = Raise e' -> e = e').
Proof.
  intros Hc.
  assert (Hget : forall path,
             exists e,
               signed_get cfg path w tr
               = (Raise e, (tr ++ [clock_request cfg])%list)
               /\ (forall ts,
                     fst (get_okx_server_time cfg w tr) = Ok ts ->
                     exists msg,
                       missing_credential_message msg
                       /\ e = ValueError (Some msg))
               /\ (forall e',
                     fst (get_okx_server_time cfg w tr) = Raise e' -> e = e')).
  { intros path. rewrite signed_get_unfold.
    destruct (signed_exchange_absent "GET" path ""
                (fun hdrs => HttpGet (text (BASE_URL cfg) ++ path) (Some hdrs))
                w tr Hc) as (e & -> & H).
    exists e. split; [reflexivity | exact H]. }
  destruct call as [|instId|instId bar|instId side sz ordType tdMode ctx];
    simpl; try apply Hget.
  rewrite create_order_absent, fetch_balance_unfold.
  destruct (signed_exchange_absent "GET" "/api/v5/account/balance" ""
              (fun hdrs => HttpGet (balance_url cfg) (Some hdrs)) w tr Hc)
    as (e & -> & H).
  exists e. split; [reflexivity | exact H].
Qed.

Lemma check_balance_malformed (instId side sz : string) (w : world)
    (tr : list event) :
  count_char "-" instId <> 1%nat ->
  check_balance cfg instId side sz w tr
  = match fetch_balance cfg w tr with
    | (Ok _, tr0) => (Raise (ValueError None), tr0)
    | (Raise e, tr0) => (Raise e, tr0)
    end.
Proof.
  intros H. unfold check_balance, bind, lift.
  destruct (fetch_balance cfg w tr) as [[j|e] t]; [| reflexivity].
  rewrite unpack_pair_raises; [reflexivity |].
  rewrite split_length. lia.
Qed.

End MoreRuns.

(** C7, as stated, at a concrete run: the secret is missing and
    [get_balance] is invoked.  The configuration error is raised, but only
    after the server-time fetch has gone out. *)
Lemma C7_counterexample :
  credential_absent Scenario.cfg_no_secret = true
  /\ network_calls
       (trace (rt := Scenario.rt) (get_balance Scenario.cfg_no_secret)
              Scenario.exchange)
     = [HttpGet "https://www.okx.com/api/v5/public/time" None]
  /\ outcome (rt := Scenario.rt) (get_balance Scenario.cfg_no_secret)
       Scenario.exchange
     = Raise (ValueError
                (Some "API_SECRET not found in environment variables.")).
Proof. vm_compute. repeat split. Qed.

(** C7 (amended): a tool invoked while the key, the secret or the
    passphrase is missing sends exactly one request, the server-time fetch,
    which carries no credential; no authenticated request is sent.  If the
    fetch succeeds the invocation raises the configuration error
    ([ValueError] with one of the two messages); if the fetch fails, its
    error is what the invocation raises. *)
Theorem C7_missing_credential_raises_after_time_fetch
    (rt : PyRuntime) (cfg : config) (w : world) (call : tool_call) :
  credential_absent cfg = true ->
  trace (invoke cfg call) w = [clock_request cfg]
  /\ filter is_authenticated (trace (invoke cfg call) w) = []
  /\ (forall ts,
        fst (get_okx_server_time cfg w []) = Ok ts ->
        exists msg,
          missing_credential_message msg
          /\ outcome (invoke cfg call) w = Raise (ValueError (Some msg)))
  /\ (forall e,
        fst (get_okx_server_time cfg w []) = Raise e ->
        outcome (invoke cfg call) w = Raise e).
Proof.
  intros Hc. unfold trace, outcome, run.
  destruct (invoke_absent cfg call w [] Hc) as (e & -> & Hok & Hraise).
  simpl. repeat split.
  - intros ts Hts. destruct (Hok ts Hts) as (msg & Hmsg & ->). now exists msg.
  - intros e' He. now rewrite (Hraise e' He).
Qed.


(** The amended C7 on the run above. *)
Lemma C7_witness :
  trace (rt := Scenario.rt) (invoke Scenario.cfg_no_secret CallGetBalance)
        Scenario.exchange
  = [clock_request Scenario.cfg_no_secret]
  /\ filter is_authenticated
       (trace (rt := Scenario.rt)
              (invoke Scenario.cfg_no_secret CallGetBalance)
              Scenario.exchange) = [].
Proof.
  destruct (C7_missing_credential_raises_after_time_fetch
              Scenario.rt Scenario.cfg_no_secret Scenario.exchange
              CallGetBalance) as (Htrace & Hauth & _).
  - vm_compute. reflexivity.
  - split; [exact Htrace | exact Hauth].
Defined.

(** C8, as stated, at a concrete run: the instrument id has no separator.
    The invocation is rejected, but only after the server-time fetch and
    the balance query have gone out. *)
Lemma C8_counterexample :
  count_char "-" "BTCUSDT" <> 1%nat
  /\ queried
       (trace (rt := Scenario.rt)
              (create_order Scenario.cfg "BTCUSDT" "buy" "1" "market" "cash"
                            None)
              Scenario.exchange)
     = [ "https://www.okx.com/api/v5/public/time";
         "https://www.okx.com/api/v5/account/balance" ]
  /\ outcome (rt := Scenario.rt)
       (create_order Scenario.cfg "BTCUSDT" "buy" "1" "market" "cash" None)
       Scenario.exchange
     = Raise (ValueError None).
Proof. vm_compute. repeat split. discriminate. Qed.

(** C8 (amended): an invocation of [create_order] whose instrument id does
    not hold exactly one separator posts no order, consults no
    collaborator and never returns a result; the id is split only after
    the balance query, so the server-time fetch always goes out first and,
    when the balance query succeeds, the invocation is rejected with a
    [ValueError] right after it. *)
Theorem C8_malformed_instrument_is_rejected_after_balance_query
    (rt : PyRuntime) (cfg : config) (w : world)
    (instId side sz ordType tdMode : string) (ctx : option Context) :
  count_char "-" instId <> 1%nat ->
  let order := create_order cfg instId side sz ordType tdMode ctx in
  posted (trace order w) = []
  /\ elicited (trace order w) = []
  /\ (exists e, outcome order w = Raise e)
  /\ (exists rest, trace order w = clock_request cfg :: rest)
  /\ (forall balance_data tr0,
        run (fetch_balance cfg) w = (Ok balance_data, tr0) ->
        run order w = (Raise (ValueError None), tr0)
        /\ exists ts, tr0 = [clock_request cfg; balance_request cfg ts]).
Proof.
  intros Hbad order. unfold trace, outcome, run, order.
  rewrite create_order_unfold, (check_balance_malformed cfg _ _ _ _ _ Hbad).
  pose proof (fetch_balance_trace cfg w []) as Htr.
  destruct (fetch_balance cfg w []) as [[j|e] t] eqn:Hf; simpl in Htr |- *.
  - destruct (fetch_balance_ok cfg _ _ _ _ Hf) as (_ & ts & _ & Ht).
    simpl in Ht. subst t. simpl.
    split; [reflexivity |]. split; [reflexivity |].
    split; [eauto |]. split; [eauto |].
    intros j' t' H. injection H as _ <-. split; [reflexivity | eauto].
  - assert (Hquiet : posted t = [] /\ elicited t = []
                     /\ exists rest, t = clock_request cfg :: rest).
    { destruct Htr as [-> | (ts & ->)]; simpl; eauto. }
    destruct Hquiet as (Hp & He & Hrest).
    split; [exact Hp |]. split; [exact He |].
    split; [eauto |]. split; [exact Hrest |]. discriminate.
Qed.

(** The amended C8 on the run above. *)
Lemma C8_witness :
  posted (trace (rt := Scenario.rt)
            (create_order Scenario.cfg "BTCUSDT" "buy" "1" "market" "cash"
                          None)
            Scenario.exchange) = []
  /\ exists e,
       outcome (rt := Scenario.rt)
         (create_order Scenario.cfg "BTCUSDT" "buy" "1" "market" "cash" None)
         Scenario.exchange = Raise e.
Proof.
  destruct (C8_malformed_instrument_is_rejected_after_balance_query
              Scenario.rt Scenario.cfg Scenario.exchange
              "BTCUSDT" "buy" "1" "market" "cash" None)
    as (Hposted & _ & Hraise & _).
  - vm_compute. discriminate.
  - split; [exact Hposted | exact Hraise].
Defined.

(** ** The available balance *)

Section Available.

Context {rt : PyRuntime}.

Lemma scan_details_passes (ccy : string) (before rest : list (json pyfloat)) :
  forallb (passed_over ccy) before = true ->
  scan_details (before ++ rest) ccy = scan_details rest ccy.
Proof.
  induction before as [|entry before IH]; simpl; intros H; [reflexivity |].
  apply andb_true_iff in H as [Hentry Hbefore].
  destruct entry as [| | | | |items|members]; simpl in Hentry; try discriminate.
  simpl. apply negb_true_iff in Hentry. rewrite Hentry. auto.
Qed.

Lemma scan_details_stops (ccy : string)
    (hit : list (string * json pyfloat)) (after : list (json pyfloat)) :
  assoc "ccy" hit = Some (JStr ccy) ->
  scan_details (JObj hit :: after) ccy
  = py_float (match assoc "availBal" hit with
              | Some avail => avail
              | None => JInt 0
              end).
Proof.
  intros H. simpl. rewrite H. simpl. now rewrite String.eqb_refl.
Qed.

End Available.

(** C10: [create_order] resolves the available balance from the first
    account object of ['data'] alone, taking ['availBal'] of the first
    detail entry whose ['ccy'] equals the checked currency (the entries
    before it are passed over, the entries after it and the later account
    objects are never looked at); when the ['data'] key is absent or no
    entry matches, the amount is 0.0. *)
Theorem C10_available_balance_resolution
    (rt : PyRuntime) (ccy : string) :
  (forall members,
      assoc "data" members = None ->
      resolve_available (JObj members) ccy = Ok float_zero)
  /\ (forall members account others before hit after,
        assoc "data" members = Some (JArr (JObj account :: others)) ->
        assoc "details" account = Some (JArr (before ++ JObj hit :: after)) ->
        forallb (passed_over ccy) before = true ->
        assoc "ccy" hit = Some (JStr ccy) ->
        resolve_available (JObj members) ccy
        = py_float (match assoc "availBal" hit with
                    | Some avail => avail
                    | None => JInt 0
                    end))
  /\ (forall members account others entries,
        assoc "data" members = Some (JArr (JObj account :: others)) ->
        assoc "details" account = Some (JArr entries) ->
        forallb (passed_over ccy) entries = true ->
        resolve_available (JObj members) ccy = Ok float_zero).
Proof.
  split; [| split].
  - intros members H. unfold resolve_available. simpl. now rewrite H.
  - intros members account others before hit after Hdata Hdetails Hbefore Hhit.
    unfold resolve_available. simpl. rewrite Hdata. simpl. rewrite Hdetails.
    simpl. rewrite (scan_details_passes _ _ _ Hbefore).
    now apply scan_details_stops.
  - intros members account others entries Hdata Hdetails Hentries.
    unfold resolve_available. simpl. rewrite Hdata. simpl. rewrite Hdetails.
    simpl. rewrite <- (app_nil_r entries).
    now rewrite (scan_details_passes _ _ _ Hentries).
Qed.

(** C10 on a response with a second match and a second account: the
    first match of the first account, 50, is the answer. *)
Lemma C10_witness :
  resolve_available (rt := Scenario.rt)
    (JObj [ ("code", JStr "0");
            ("data",
             JArr [ Scenario.account
                      [ Scenario.held "ETH" "1"; Scenario.held "USDT" "50";
                        Scenario.held "USDT" "70" ];
                    Scenario.account [ Scenario.held "USDT" "90" ] ]) ])
    "USDT"
  = Ok (Reference.Build_dec 50 0).
Proof.
  destruct (C10_available_balance_resolution Scenario.rt "USDT")
    as (_ & Hfirst & _).
  rewrite (Hfirst _ [ ("totalEq", JStr "1000");
                      ("details",
                       JArr [ Scenario.held "ETH" "1";
                              Scenario.held "USDT" "50";
                              Scenario.held "USDT" "70" ]) ]
             [ Scenario.account [ Scenario.held "USDT" "90" ] ]
             [ Scenario.held "ETH" "1" ]
             [ ("ccy", JStr "USDT"); ("availBal", JStr "50") ]
             [ Scenario.held "USDT" "70" ]);
    reflexivity.
Defined.

Local Open Scope Z_scope.
Local Open Scope string_scope.

(** ** The shape of a digest and the injectivity of base64 *)

Lemma compress_length (h block : list Z) :
  length h = 8%nat -> length (SHA256.compress h block) = 8%nat.
Proof.
  intros H. unfold SHA256.compress.
  rewrite length_map, length_combine, H. reflexivity.
Qed.

Lemma fold_compress_length (blocks : list (list Z)) (h0 : list Z) :
  length h0 = 8%nat ->
  length (fold_left SHA256.compress blocks h0) = 8%nat.
Proof.
  revert h0. induction blocks as [|b blocks IH]; simpl; intros h0 H;
    [exact H |].
  apply IH. now apply compress_length.
Qed.

Lemma flat_map_word_bytes (ws : list Z) :
  length (flat_map SHA256.word_bytes ws) = (4 * length ws)%nat
  /\ Forall is_byte (flat_map SHA256.word_bytes ws).
Proof.
  induction ws as [|x ws [IHl IHb]]; simpl; [split; [reflexivity | constructor] |].
  split; [rewrite IHl; lia |].
  repeat constructor; try apply Z.mod_pos_bound; try lia. exact IHb.
Qed.

Lemma digest_shape (msg : list Z) :
  length (SHA256.digest msg) = 32%nat /\ Forall is_byte (SHA256.digest msg).
Proof.
  unfold SHA256.digest.
  destruct (flat_map_word_bytes
              (fold_left SHA256.compress
                 (SHA256.blocks (length (SHA256.words_of_bytes (SHA256.pad msg)))
                    (SHA256.words_of_bytes (SHA256.pad msg)))
                 SHA256.initial_hash)) as [Hl Hb].
  split; [| exact Hb].
  rewrite Hl, fold_compress_length; reflexivity.
Qed.

Lemma hmac_shape (key msg : list Z) :
  length (HMAC.hmac_sha256 key msg) = 32%nat
  /\ Forall is_byte (HMAC.hmac_sha256 key msg).
Proof. apply digest_shape. Qed.

Lemma sextets_checked :
  forallb
    (fun a =>
       (String.length (Base64.sextet a) =? 1)%nat
       && forallb
            (fun b =>
               implb (String.eqb (Base64.sextet a) (Base64.sextet b))
                     (a =? b)%Z)
            (map Z.of_nat (seq 0 64)))
    (map Z.of_nat (seq 0 64))
  = true.
Proof. vm_compute. reflexivity. Qed.

Lemma in_sextet_range (a : Z) :
  0 <= a < 64 -> In a (map Z.of_nat (seq 0 64)).
Proof.
  intros H. apply in_map_iff. exists (Z.to_nat a).
  split; [lia |]. apply in_seq. lia.
Qed.

Lemma sextet_single (a : Z) :
  0 <= a < 64 -> exists c, Base64.sextet a = String c "".
Proof.
  intros H. pose proof sextets_checked as Hall.
  rewrite forallb_forall in Hall.
  specialize (Hall a (in_sextet_range a H)).
  apply andb_true_iff in Hall as [Hlen _]. apply Nat.eqb_eq in Hlen.
  destruct (Base64.sextet a) as [|c [|d s]]; simpl in Hlen; try discriminate.
  now exists c.
Qed.

Lemma sextet_injective (a b : Z) :
  0 <= a < 64 -> 0 <= b < 64 -> Base64.sextet a = Base64.sextet b -> a = b.
Proof.
  intros Ha Hb Heq. pose proof sextets_checked as Hall.
  rewrite forallb_forall in Hall.
  specialize (Hall a (in_sextet_range a Ha)).
  apply andb_true_iff in Hall as [_ Hall].
  rewrite forallb_forall in Hall.
  specialize (Hall b (in_sextet_range b Hb)).
  rewrite Heq, String.eqb_refl in Hall. simpl in Hall. now apply Z.eqb_eq.
Qed.

(** Two strings that start with a sextet are equal only if the sextets
    and the rests are. *)
Lemma sextet_cons (a b : Z) (s t : string) :
  0 <= a < 64 -> 0 <= b < 64 ->
  Base64.sextet a ++ s = Base64.sextet b ++ t -> a = b /\ s = t.
Proof.
  intros Ha Hb H.
  destruct (sextet_single a Ha) as [c Hc].
  destruct (sextet_single b Hb) as [d Hd].
  rewrite Hc, Hd in H. simpl in H. injection H as Hcd Hst.
  split; [| exact Hst].
  apply sextet_injective; try assumption. rewrite Hc, Hd. now subst d.
Qed.

Ltac sextet_bounds :=
  unfold is_byte in *;
  match goal with
  | |- _ <= _ < _ => Z.to_euclidean_division_equations; lia
  end.

Lemma b64encode_injective :
  forall (n : nat) (xs ys : list Z),
    (length xs <= n)%nat -> length xs = length ys ->
    Forall is_byte xs -> Forall is_byte ys ->
    Base64.b64encode xs = Base64.b64encode ys -> xs = ys.
Proof.
  induction n as [|n IH]; intros xs ys Hn Hlen Hx Hy Heq.
  - destruct xs; [| simpl in Hn; lia]. destruct ys; [reflexivity | discriminate].
  - destruct xs as [|a [|b [|c xs]]]; destruct ys as [|a' [|b' [|c' ys]]];
      simpl in Hlen; try discriminate; try reflexivity.
    + inversion Hx as [|? ? Ha _]; inversion Hy as [|? ? Ha' _]; subst.
      simpl in Heq.
      apply sextet_cons in Heq as [H1 Heq]; try sextet_bounds.
      apply sextet_cons in Heq as [H2 _]; try sextet_bounds.
      f_equal. unfold is_byte in *.
      Z.to_euclidean_division_equations; lia.
    + inversion Hx as [|? ? Ha Hx']; inversion Hx' as [|? ? Hb _];
        inversion Hy as [|? ? Ha' Hy']; inversion Hy' as [|? ? Hb' _]; subst.
      simpl in Heq.
      apply sextet_cons in Heq as [H1 Heq]; try sextet_bounds.
      apply sextet_cons in Heq as [H2 Heq]; try sextet_bounds.
      apply sextet_cons in Heq as [H3 _]; try sextet_bounds.
      unfold is_byte in *.
      assert (a = a') by (Z.to_euclidean_division_equations; lia).
      assert (b = b') by (Z.to_euclidean_division_equations; lia).
      now subst.
    + inversion Hx as [|? ? Ha Hx']; inversion Hx' as [|? ? Hb Hx''];
        inversion Hx'' as [|? ? Hc Hxs];
        inversion Hy as [|? ? Ha' Hy']; inversion Hy' as [|? ? Hb' Hy''];
        inversion Hy'' as [|? ? Hc' Hys]; subst.
      change (Base64.b64encode (a :: b :: c :: xs))
        with (Base64.sextet (a / 4)
                ++ Base64.sextet (a mod 4 * 16 + b / 16)
                ++ Base64.sextet (b mod 16 * 4 + c / 64)
                ++ Base64.sextet (c mod 64) ++ Base64.b64encode xs) in Heq.
      change (Base64.b64encode (a' :: b' :: c' :: ys))
        with (Base64.sextet (a' / 4)
                ++ Base64.sextet (a' mod 4 * 16 + b' / 16)
                ++ Base64.sextet (b' mod 16 * 4 + c' / 64)
                ++ Base64.sextet (c' mod 64) ++ Base64.b64encode ys) in Heq.
      apply sextet_cons in Heq as [H1 Heq]; try sextet_bounds.
      apply sextet_cons in Heq as [H2 Heq]; try sextet_bounds.
      apply sextet_cons in Heq as [H3 Heq]; try sextet_bounds.
      apply sextet_cons in Heq as [H4 Heq]; try sextet_bounds.
      unfold is_byte in *.
      assert (a = a') by (Z.to_euclidean_division_equations; lia).
      assert (b = b') by (Z.to_euclidean_division_equations; lia).
      assert (c = c') by (Z.to_euclidean_division_equations; lia).
      subst. do 3 f_equal.
      apply IH; try assumption; simpl in Hn, Hlen; lia.
Qed.

(** ** Collisions *)

Lemma in_all_bytes (b : Z) : is_byte b -> In b all_bytes.
Proof.
  intros H. unfold is_byte in H. apply in_map_iff. exists (Z.to_nat b).
  split; [lia |]. apply in_seq. lia.
Qed.

Lemma in_all_words (l : list Z) :
  Forall is_byte l -> In l (all_words (length l)).
Proof.
  induction 1 as [|b l Hb Hl IH]; [now left |].
  cbn [length all_words]. apply in_flat_map. exists b.
  split; [now apply in_all_bytes |]. now apply in_map.
Qed.

(** A list either has no repetition or holds some element twice. *)
Lemma repetition_or_not {A : Type}
    (eq_dec : forall x y : A, {x = y} + {x <> y}) (l : list A) :
  NoDup l \/ exists a l1 l2 l3, l = (l1 ++ a :: l2 ++ a :: l3)%list.
Proof.
  induction l as [|x l [IH | (a & l1 & l2 & l3 & ->)]].
  - left. constructor.
  - destruct (in_dec eq_dec x l) as [Hin | Hout].
    + right. apply in_split in Hin as (l2 & l3 & ->).
      now exists x, [], l2, l3.
    + left. now constructor.
  - right. now exists a, (x :: l1), l2, l3.
Qed.

(** Pigeonhole: a sequence whose values all lie in a finite list takes
    some value twice. *)
Lemma pigeonhole {A : Type}
    (eq_dec : forall x y : A, {x = y} + {x <> y})
    (f : nat -> A) (univ : list A) :
  (forall n, In (f n) univ) ->
  exists i j, i <> j /\ f i = f j.
Proof.
  intros Hin.
  destruct (repetition_or_not eq_dec (map f (seq 0 (S (length univ)))))
    as [Hnodup | (a & l1 & l2 & l3 & Heq)].
  - exfalso. apply (Nat.nle_succ_diag_l (length univ)).
    rewrite <- (length_seq (S (length univ)) 0) at 1.
    rewrite <- (length_map f).
    apply NoDup_incl_length; [exact Hnodup |].
    intros x Hx. apply in_map_iff in Hx as (n & <- & _). apply Hin.
  - apply map_eq_app in Heq as (s1 & rest & Hseq & _ & Hrest).
    apply map_eq_cons in Hrest as (i & rest' & -> & Hi & Hrest).
    apply map_eq_app in Hrest as (s2 & rest'' & -> & _ & Hrest).
    apply map_eq_cons in Hrest as (j & s3 & -> & Hj & _).
    exists i, j. split; [| congruence].
    pose proof (seq_NoDup (S (length univ)) 0) as Hnd.
    rewrite Hseq in Hnd. apply NoDup_remove_2 in Hnd.
    intros ->. apply Hnd. apply in_or_app. right.
    apply in_or_app. right. now left.
Qed.

Lemma zeros_length (n : nat) : String.length (Reference.zeros n) = n.
Proof. induction n as [|n IH]; simpl; [reflexivity | now rewrite IH]. Qed.

(** ** The signer *)

Lemma utf8_bytes_injective (s t : string) :
  utf8_bytes s = utf8_bytes t -> s = t.
Proof.
  revert t. induction s as [|c s IH]; intros [|d t] H; simpl in H;
    try discriminate; [reflexivity |].
  injection H as Hc Hs. apply N2Z.inj in Hc.
  apply (f_equal ascii_of_N) in Hc. rewrite !ascii_N_embedding in Hc.
  subst d. f_equal. now apply IH.
Qed.

Lemma secret_present (cfg : config) (secret : string) :
  API_SECRET cfg = Some secret -> secret <> "" ->
  is_falsy (API_SECRET cfg) = false /\ text (API_SECRET cfg) = secret.
Proof.
  intros -> H. destruct secret; [contradiction | split; reflexivity].
Qed.

(** With a key and the three other fields fixed, two bodies get the same
    signature: there are more bodies than digests. *)
Lemma signature_collision (rt : PyRuntime) (cfg : config)
    (secret ts m p : string) :
  API_SECRET cfg = Some secret -> secret <> "" ->
  exists body body',
    body <> body'
    /\ get_okx_signature cfg ts m p body = get_okx_signature cfg ts m p body'.
Proof.
  intros Hsecret Hne.
  destruct (secret_present cfg secret Hsecret Hne) as [Hs Htext].
  destruct (pigeonhole (list_eq_dec Z.eq_dec)
              (fun n =>
                 HMAC.hmac_sha256 (utf8_bytes secret)
                   (utf8_bytes (signed_message ts m p (Reference.zeros n))))
              (all_words 32)) as (i & j & Hij & Heq).
  { intros n.
    destruct (hmac_shape (utf8_bytes secret)
                (utf8_bytes (signed_message ts m p (Reference.zeros n))))
      as [Hlen Hbytes].
    rewrite <- Hlen. now apply in_all_words. }
  exists (Reference.zeros i), (Reference.zeros j). split.
  - intros H. apply Hij. now rewrite <- (zeros_length i), H, zeros_length.
  - rewrite !(signature_ok cfg _ _ _ _ Hs), Htext. unfold okx_signature.
    now rewrite Heq.
Qed.

(** C5: for every secret, timestamp, method, path and body, the signature
    is the base64 text of the raw HMAC-SHA256 digest, keyed by the secret,
    of the bytes of timestamp, [method.upper()], path and body put
    together in that order; a query tool, which has no payload, signs with
    the empty string as body. *)
Theorem C5_signature_is_base64_of_hmac_sha256
    (rt : PyRuntime) (cfg : config)
    (secret timestamp method request_path body : string) :
  API_SECRET cfg = Some secret -> secret <> "" ->
  get_okx_signature cfg timestamp method request_path body
  = Ok (Base64.b64encode
          (HMAC.hmac_sha256
             (utf8_bytes secret)
             (utf8_bytes
                (timestamp ++ str_upper method ++ request_path ++ body))))
  /\ forall (w : world) (path ts : string),
       is_falsy (API_KEY cfg) = false ->
       is_falsy (API_PASSPHRASE cfg) = false ->
       fst (get_okx_server_time cfg w []) = Ok ts ->
       exists hdrs,
         trace (signed_get cfg path) w
         = [clock_request cfg;
            HttpGet (text (BASE_URL cfg) ++ path) (Some hdrs)]
         /\ assoc "OK-ACCESS-SIGN" hdrs
            = Some (Base64.b64encode
                      (HMAC.hmac_sha256
                         (utf8_bytes secret)
                         (utf8_bytes (ts ++ str_upper "GET" ++ path ++ "")))).
Proof.
  intros Hsecret Hne.
  destruct (secret_present cfg secret Hsecret Hne) as [Hs Htext].
  split.
  - rewrite (signature_ok cfg _ _ _ _ Hs), Htext. reflexivity.
  - intros w path ts Hk Hp Hts.
    assert (Hc : credential_absent cfg = false).
    { unfold credential_absent. now rewrite Hk, Hs, Hp. }
    unfold trace, run. rewrite signed_get_unfold.
    destruct (signed_exchange_run cfg "GET" path ""
                (fun hdrs => HttpGet (text (BASE_URL cfg) ++ path) (Some hdrs))
                w []) as (r & Hclock & Hrun).
    rewrite Hclock in Hts. simpl in Hts. subst r. rewrite Hc in Hrun.
    destruct Hrun as (r' & ->).
    exists (signed_headers cfg "GET" path "" ts).
    split; [destruct r'; reflexivity |].
    simpl. unfold okx_signature, signed_message. now rewrite Htext.
Qed.

(** C5 on the balance query of the scenario. *)
Lemma C5_witness :
  get_okx_signature (rt := Scenario.rt) Scenario.cfg
    "2024-06-07T12:34:56.789Z" "get" "/api/v5/account/balance" ""
  = Ok (Base64.b64encode
          (HMAC.hmac_sha256
             (utf8_bytes "secret-1")
             (utf8_bytes "2024-06-07T12:34:56.789ZGET/api/v5/account/balance"))).
Proof.
  apply (C5_signature_is_base64_of_hmac_sha256
           Scenario.rt Scenario.cfg "secret-1" "2024-06-07T12:34:56.789Z"
           "get" "/api/v5/account/balance" "").
  - reflexivity.
  - discriminate.
Defined.

(** C6, as stated, fails twice.  At a concrete pair of inputs: "get" and
    "GET" differ, the other three fields are the same, and the two
    signatures are equal.  And apart from letter case: with key,
    timestamp, method and path fixed, two different bodies have the same
    signature, there being more bodies than digests. *)
Lemma C6_counterexample :
  ("get" <> "GET"
   /\ get_okx_signature (rt := Scenario.rt) Scenario.cfg
        "2024-06-07T12:34:56.789Z" "get" "/api/v5/account/balance" ""
      = get_okx_signature (rt := Scenario.rt) Scenario.cfg
          "2024-06-07T12:34:56.789Z" "GET" "/api/v5/account/balance" "")
  /\ exists body body',
       body <> body'
       /\ get_okx_signature (rt := Scenario.rt) Scenario.cfg
            "2024-06-07T12:34:56.789Z" "POST" "/api/v5/trade/order" body
          = get_okx_signature (rt := Scenario.rt) Scenario.cfg
              "2024-06-07T12:34:56.789Z" "POST" "/api/v5/trade/order" body'.
Proof.
  split; [split; [discriminate | reflexivity] |].
  apply (signature_collision Scenario.rt Scenario.cfg "secret-1");
    [reflexivity | discriminate].
Qed.

(** C6 (amended): the signature is a function of its inputs; two inputs
    whose methods have the same upper-case form, the rest being equal, get
    the same signature; a change of the timestamp alone, of the path alone,
    of the body alone, or of the method to one with another upper-case
    form, changes the bytes that are signed; two signatures are equal
    exactly when HMAC-SHA256 gives the two signed messages the same
    digest; and that they always differ cannot be promised: whatever the
    timestamp, the method and the path, two different bodies have the
    same signature. *)
Theorem C6_signature_determinism_and_sensitivity
    (rt : PyRuntime) (cfg : config) (secret : string)
    (ts m p b ts' m' p' b' : string) :
  API_SECRET cfg = Some secret -> secret <> "" ->
  (ts = ts' -> m = m' -> p = p' -> b = b' ->
   get_okx_signature cfg ts m p b = get_okx_signature cfg ts' m' p' b')
  /\ (str_upper m = str_upper m' ->
      get_okx_signature cfg ts m p b = get_okx_signature cfg ts m' p b)
  /\ (ts <> ts' ->
      utf8_bytes (signed_message ts m p b)
      <> utf8_bytes (signed_message ts' m p b))
  /\ (str_upper m <> str_upper m' ->
      utf8_bytes (signed_message ts m p b)
      <> utf8_bytes (signed_message ts m' p b))
  /\ (p <> p' ->
      utf8_bytes (signed_message ts m p b)
      <> utf8_bytes (signed_message ts m p' b))
  /\ (b <> b' ->
      utf8_bytes (signed_message ts m p b)
      <> utf8_bytes (signed_message ts m p b'))
  /\ (get_okx_signature cfg ts m p b = get_okx_signature cfg ts' m' p' b'
      <-> HMAC.hmac_sha256 (utf8_bytes secret)
            (utf8_bytes (signed_message ts m p b))
          = HMAC.hmac_sha256 (utf8_bytes secret)
              (utf8_bytes (signed_message ts' m' p' b')))
  /\ (exists body body',
        body <> body'
        /\ get_okx_signature cfg ts m p body
           = get_okx_signature cfg ts m p body').
Proof.
  intros Hsecret Hne.
  destruct (secret_present cfg secret Hsecret Hne) as [Hs Htext].
  split; [intros -> -> -> ->; reflexivity |].
  split.
  { intros Hu. rewrite !(signature_ok cfg _ _ _ _ Hs).
    unfold okx_signature, signed_message. now rewrite Hu. }
  unfold signed_message.
  split.
  { intros Hd Heq. apply utf8_bytes_injective in Heq.
    apply append_cancel_r in Heq. contradiction. }
  split.
  { intros Hd Heq. apply utf8_bytes_injective in Heq.
    apply append_cancel_l in Heq. rewrite <- !append_assoc in Heq.
    apply append_cancel_r in Heq. apply append_cancel_r in Heq.
    contradiction. }
  split.
  { intros Hd Heq. apply utf8_bytes_injective in Heq.
    do 2 apply append_cancel_l in Heq.
    apply append_cancel_r in Heq. contradiction. }
  split.
  { intros Hd Heq. apply utf8_bytes_injective in Heq.
    do 3 apply append_cancel_l in Heq. contradiction. }
  split; [| now apply (signature_collision rt cfg secret)].
  rewrite !(signature_ok cfg _ _ _ _ Hs), Htext.
  unfold okx_signature, signed_message. split.
  - intros Heq. injection Heq as Heq.
    destruct (hmac_shape (utf8_bytes secret)
                (utf8_bytes (ts ++ str_upper m ++ p ++ b))) as [Hl1 Hb1].
    destruct (hmac_shape (utf8_bytes secret)
                (utf8_bytes (ts' ++ str_upper m' ++ p' ++ b'))) as [Hl2 Hb2].
    apply (b64encode_injective 32); try assumption; lia.
  - intros ->. reflexivity.
Qed.

(** The amended C6 on two timestamps one millisecond apart: the digests
    differ, hence the signatures. *)
Lemma C6_witness :
  get_okx_signature (rt := Scenario.rt) Scenario.cfg
    "2024-06-07T12:34:56.789Z" "GET" "/api/v5/account/balance" ""
  <> get_okx_signature (rt := Scenario.rt) Scenario.cfg
       "2024-06-07T12:34:56.790Z" "GET" "/api/v5/account/balance" "".
Proof.
  destruct (C6_signature_determinism_and_sensitivity
              Scenario.rt Scenario.cfg "secret-1"
              "2024-06-07T12:34:56.789Z" "GET" "/api/v5/account/balance" ""
              "2024-06-07T12:34:56.790Z" "GET" "/api/v5/account/balance" "")
    as (_ & _ & _ & _ & _ & _ & Hiff & _).
  - reflexivity.
  - discriminate.
  - intros Heq. apply Hiff in Heq. vm_compute in Heq. discriminate.
Defined.

(** ** The secret *)

Section Quiet.

Context {rt : PyRuntime}.

Lemma printed_app (a b : list event) :
  printed (a ++ b) = (printed a ++ printed b)%list.
Proof.
  induction a as [|e a IH]; simpl; [reflexivity |].
  destruct e; simpl; now rewrite IH.
Qed.

Lemma quiet_ret {A : Type} (a : A) : quiet (ret a).
Proof. intros w tr. reflexivity. Qed.

Lemma quiet_raise {A : Type} (e : exn) : quiet (raise (A := A) e).
Proof. intros w tr. reflexivity. Qed.

Lemma quiet_lift {A : Type} (r : result A) : quiet (lift r).
Proof. intros w tr. reflexivity. Qed.

Lemma quiet_bind {A B : Type} (m : M A) (k : A -> M B) :
  quiet m -> (forall a, quiet (k a)) -> quiet (bind m k).
Proof.
  intros Hm Hk w tr. unfold bind. specialize (Hm w tr).
  destruct (m w tr) as [[a|e] tr']; simpl in *; [| exact Hm].
  now rewrite Hk.
Qed.

Lemma quiet_request (e : event) : is_network e = true -> quiet (request e).
Proof.
  intros He w tr. unfold request.
  assert (H : printed (tr ++ [e]) = printed tr).
  { rewrite printed_app. destruct e; simpl in *; try discriminate;
      apply app_nil_r. }
  destruct (w (tr ++ [e])%list); simpl; exact H.
Qed.

Lemma quiet_elicit (ctx : Context) (message : string) :
  quiet (elicit ctx message).
Proof.
  intros w tr. unfold elicit.
  assert (H : printed (tr ++ [Elicit message]) = printed tr).
  { rewrite printed_app. simpl. apply app_nil_r. }
  destruct (elicit_reply ctx message); simpl; exact H.
Qed.

Lemma quiet_raise_for_status (r : response) : quiet (raise_for_status r).
Proof.
  unfold raise_for_status. destruct (is_success r);
    [apply quiet_ret | apply quiet_raise].
Qed.

Ltac quiet_steps :=
  repeat first
    [ apply quiet_bind; [| intros ?]
    | apply quiet_ret
    | apply quiet_raise
    | apply quiet_lift
    | apply quiet_raise_for_status
    | apply quiet_elicit
    | apply quiet_request; reflexivity ].

Variable cfg : config.

Lemma quiet_server_time : quiet (get_okx_server_time cfg).
Proof.
  unfold get_okx_server_time, client_get, response_json. quiet_steps.
Qed.

Lemma quiet_headers (m p b : string) (ts : option string) :
  quiet (get_okx_headers cfg m p b ts).
Proof.
  unfold get_okx_headers.
  destruct (is_falsy (API_KEY cfg) || is_falsy (API_PASSPHRASE cfg));
    [apply quiet_raise |].
  apply quiet_bind; [destruct (is_falsy ts);
                     [apply quiet_server_time | apply quiet_ret] |].
  intros t. quiet_steps.
Qed.

Lemma quiet_signed_get (path : string) : quiet (signed_get cfg path).
Proof.
  unfold signed_get, client_get, response_json.
  apply quiet_bind; [apply quiet_server_time | intros ts].
  apply quiet_bind; [apply quiet_headers | intros hdrs].
  quiet_steps.
Qed.

Lemma quiet_submit_order (instId side sz ordType tdMode : string) :
  quiet (submit_order cfg instId side sz ordType tdMode).
Proof.
  unfold submit_order, client_post, response_json. cbv zeta.
  apply quiet_bind; [apply quiet_server_time | intros ts].
  apply quiet_bind; [apply quiet_headers | intros hdrs].
  quiet_steps.
Qed.

Lemma quiet_create_order (instId side sz ordType tdMode : string)
    (ctx : option Context) :
  quiet (create_order cfg instId side sz ordType tdMode ctx).
Proof.
  unfold create_order, client_get, response_json. cbv zeta.
  apply quiet_bind; [apply quiet_server_time | intros ts].
  apply quiet_bind; [apply quiet_headers | intros hdrs].
  apply quiet_bind; [apply quiet_request; reflexivity | intros resp].
  apply quiet_bind; [apply quiet_raise_for_status | intros _].
  apply quiet_bind; [apply quiet_lift | intros balance_data].
  apply quiet_bind; [apply quiet_lift | intros pair].
  apply quiet_bind; [apply quiet_lift | intros available].
  apply quiet_bind; [apply quiet_lift | intros requested].
  destruct (float_gt requested available); [| apply quiet_submit_order].
  destruct ctx as [ctx|]; [| apply quiet_ret].
  apply quiet_bind; [apply quiet_elicit | intros result].
  destruct (accepted result); [apply quiet_submit_order | apply quiet_ret].
Qed.

Lemma quiet_invoke (call : tool_call) : quiet (invoke cfg call).
Proof.
  destruct call; simpl;
    [apply quiet_signed_get .. | apply quiet_create_order].
Qed.

End Quiet.

Section Secrecy.

Context {rt : PyRuntime}.

Variables c1 c2 : config.

Variables w1 w2 : world.

Hypothesis Hworlds : same_replies c1 c2 w1 w2.

Lemma alike_ret {A : Type} (R : A -> A -> Prop) (a1 a2 : A) :
  R a1 a2 -> alike c1 c2 w1 w2 R (ret a1) (ret a2).
Proof. intros H tr1 tr2 Htr. simpl. auto. Qed.

Lemma alike_raise {A : Type} (R : A -> A -> Prop) (e : exn) :
  alike c1 c2 w1 w2 R (raise e) (raise e).
Proof. intros tr1 tr2 Htr. simpl. auto. Qed.

Lemma alike_lift {A : Type} (r : result A) :
  alike c1 c2 w1 w2 eq (lift r) (lift r).
Proof. intros tr1 tr2 Htr. simpl. split; [exact Htr |]. now destruct r. Qed.

Lemma alike_bind {A B : Type} (R : A -> A -> Prop) (S : B -> B -> Prop)
    (m1 m2 : M A) (k1 k2 : A -> M B) :
  alike c1 c2 w1 w2 R m1 m2 ->
  (forall a1 a2, R a1 a2 -> alike c1 c2 w1 w2 S (k1 a1) (k2 a2)) ->
  alike c1 c2 w1 w2 S (bind m1 k1) (bind m2 k2).
Proof.
  intros Hm Hk tr1 tr2 Htr. unfold bind.
  destruct (Hm tr1 tr2 Htr) as [Htr' Hout].
  destruct (m1 w1 tr1) as [[a1|e1] t1]; destruct (m2 w2 tr2) as [[a2|e2] t2];
    simpl in *; try contradiction.
  - now apply Hk.
  - auto.
Qed.

Lemma twin_snoc (tr1 tr2 : list event) (e1 e2 : event) :
  Forall2 (twin c1 c2) tr1 tr2 -> twin c1 c2 e1 e2 ->
  Forall2 (twin c1 c2) (tr1 ++ [e1]) (tr2 ++ [e2]).
Proof.
  intros Htr He. apply Forall2_app; [exact Htr |].
  constructor; [exact He | constructor].
Qed.

Lemma alike_request (e1 e2 : event) :
  twin c1 c2 e1 e2 -> alike c1 c2 w1 w2 eq (request e1) (request e2).
Proof.
  intros He tr1 tr2 Htr. unfold request.
  pose proof (twin_snoc _ _ _ _ Htr He) as Hnext.
  rewrite (Hworlds _ _ Hnext).
  destruct (w2 (tr2 ++ [e2])%list); simpl; auto.
Qed.

Lemma alike_elicit (ctx : Context) (message : string) :
  alike c1 c2 w1 w2 eq (elicit ctx message) (elicit ctx message).
Proof.
  intros tr1 tr2 Htr. unfold elicit.
  assert (Hnext : Forall2 (twin c1 c2) (tr1 ++ [Elicit message])
                    (tr2 ++ [Elicit message])).
  { apply twin_snoc; [exact Htr |]. now apply twin_plain. }
  destruct (elicit_reply ctx message); simpl; auto.
Qed.

Lemma alike_raise_for_status (r : response) :
  alike c1 c2 w1 w2 eq (raise_for_status r) (raise_for_status r).
Proof.
  unfold raise_for_status. destruct (is_success r);
    [now apply alike_ret | apply alike_raise].
Qed.

(** From a request on, a tool does the same on both sides. *)
Lemma alike_receive {A : Type} (e1 e2 : event)
    (k1 k2 : json pyfloat -> M A) :
  twin c1 c2 e1 e2 ->
  (forall body, alike c1 c2 w1 w2 eq (k1 body) (k2 body)) ->
  alike c1 c2 w1 w2 eq
    (response <- request e1 ;;
     _ <- raise_for_status response ;;
     body <- response_json response ;;
     k1 body)
    (response <- request e2 ;;
     _ <- raise_for_status response ;;
     body <- response_json response ;;
     k2 body).
Proof.
  intros He Hk.
  apply (alike_bind eq); [now apply alike_request |].
  intros r ? <-.
  apply (alike_bind eq); [apply alike_raise_for_status |].
  intros _ _ _.
  apply (alike_bind eq); [apply alike_lift |].
  intros body ? <-. apply Hk.
Qed.

Hypothesis Hconfigs : same_but_secret c1 c2.

Lemma alike_server_time :
  alike c1 c2 w1 w2 eq (get_okx_server_time c1) (get_okx_server_time c2).
Proof.
  destruct Hconfigs as (_ & _ & Hurl & _).
  unfold get_okx_server_time, client_get. rewrite Hurl.
  apply alike_receive; [now apply twin_plain |].
  intros body.
  apply (alike_bind eq); [apply alike_lift |]. intros items ? <-.
  apply (alike_bind eq); [apply alike_lift |]. intros item ? <-.
  apply (alike_bind eq); [apply alike_lift |]. intros ts ? <-.
  apply (alike_bind eq); [apply alike_lift |]. intros millis ? <-.
  apply (alike_bind eq); [apply alike_lift |]. intros stamp ? <-.
  now apply alike_ret.
Qed.

Lemma alike_headers (m p b : string) (ts : option string) :
  alike c1 c2 w1 w2 (twin_headers c1 c2 m p b)
        (get_okx_headers c1 m p b ts) (get_okx_headers c2 m p b ts).
Proof.
  destruct Hconfigs as (Hk & Hp & _ & Hs1 & Hs2).
  unfold get_okx_headers. rewrite Hk, Hp.
  destruct (is_falsy (API_KEY c2) || is_falsy (API_PASSPHRASE c2));
    [apply alike_raise |].
  apply (alike_bind eq).
  { destruct (is_falsy ts); [apply alike_server_time | now apply alike_ret]. }
  intros t ? <-.
  rewrite (signature_ok c1 _ _ _ _ Hs1), (signature_ok c2 _ _ _ _ Hs2).
  intros tr1 tr2 Htr. unfold bind, lift, ret. simpl.
  split; [exact Htr |]. exists t. unfold signed_headers.
  now rewrite Hk, Hp.
Qed.

Lemma alike_signed_get (path : string) :
  alike c1 c2 w1 w2 eq (signed_get c1 path) (signed_get c2 path).
Proof.
  unfold signed_get, client_get.
  apply (alike_bind eq); [apply alike_server_time |]. intros ts ? <-.
  apply (alike_bind (twin_headers c1 c2 "GET" path ""));
    [apply alike_headers |].
  intros h1 h2 (t & -> & ->).
  apply alike_receive; [apply twin_get |].
  intros body. now apply alike_ret.
Qed.

Lemma alike_submit_order (instId side sz ordType tdMode : string) :
  alike c1 c2 w1 w2 eq (submit_order c1 instId side sz ordType tdMode)
        (submit_order c2 instId side sz ordType tdMode).
Proof.
  unfold submit_order, client_post. cbv zeta.
  apply (alike_bind eq); [apply alike_server_time |]. intros ts ? <-.
  apply (alike_bind
           (twin_headers c1 c2 "POST" order_path
              (json_dumps (order_body instId tdMode side ordType sz))));
    [apply alike_headers |].
  intros h1 h2 (t & -> & ->).
  apply alike_receive; [apply twin_post |].
  intros body. now apply alike_ret.
Qed.

Lemma alike_create_order (instId side sz ordType tdMode : string)
    (ctx : option Context) :
  alike c1 c2 w1 w2 eq (create_order c1 instId side sz ordType tdMode ctx)
        (create_order c2 instId side sz ordType tdMode ctx).
Proof.
  unfold create_order, client_get. cbv zeta.
  apply (alike_bind eq); [apply alike_server_time |]. intros ts ? <-.
  apply (alike_bind (twin_headers c1 c2 "GET" "/api/v5/account/balance" ""));
    [apply alike_headers |].
  intros h1 h2 (t & -> & ->).
  apply alike_receive; [apply twin_get |].
  intros balance_data.
  apply (alike_bind eq); [apply alike_lift |]. intros pair ? <-.
  apply (alike_bind eq); [apply alike_lift |]. intros available ? <-.
  apply (alike_bind eq); [apply alike_lift |]. intros requested ? <-.
  destruct (float_gt requested available); [| apply alike_submit_order].
  destruct ctx as [ctx|]; [| now apply alike_ret].
  apply (alike_bind eq); [apply alike_elicit |]. intros result ? <-.
  destruct (accepted result); [apply alike_submit_order | now apply alike_ret].
Qed.

Lemma alike_invoke (call : tool_call) :
  alike c1 c2 w1 w2 eq (invoke c1 call) (invoke c2 call).
Proof.
  destruct call; simpl;
    [apply alike_signed_get .. | apply alike_create_order].
Qed.

(** Twin events differ at most in the value of the signature header. *)
Lemma twin_scrub (e1 e2 : event) :
  twin c1 c2 e1 e2 -> scrub e1 = scrub e2.
Proof.
  destruct Hconfigs as (Hk & Hp & Hurl & _).
  intros [e He | path ts | content ts]; [reflexivity | |];
    unfold order_url; simpl; now rewrite Hk, Hp, Hurl.
Qed.

Lemma twins_scrub (tr1 tr2 : list event) :
  Forall2 (twin c1 c2) tr1 tr2 -> map scrub tr1 = map scrub tr2.
Proof.
  induction 1 as [|e1 e2 tr1 tr2 He _ IH]; simpl; [reflexivity |].
  now rewrite (twin_scrub _ _ He), IH.
Qed.

End Secrecy.

Lemma same_outcome_eq {A : Type} (r1 r2 : result A) :
  same_outcome eq r1 r2 -> r1 = r2.
Proof.
  destruct r1, r2; simpl; intros H; try contradiction; now subst.
Qed.

(** An exchange that verifies signatures answers twin histories alike. *)

Lemma string_drop_append (a b : string) :
  string_drop (String.length a) (a ++ b) = b.
Proof. induction a as [|c a IH]; simpl; [reflexivity | exact IH]. Qed.

Lemma twin_network (rt : PyRuntime) (c1 c2 : config) (e1 e2 : event) :
  twin c1 c2 e1 e2 -> is_network e1 = is_network e2.
Proof. intros [e He | path ts | content ts]; reflexivity. Qed.

Lemma twins_network_calls (rt : PyRuntime) (c1 c2 : config)
    (tr1 tr2 : list event) :
  Forall2 (twin c1 c2) tr1 tr2 ->
  length (network_calls tr1) = length (network_calls tr2).
Proof.
  induction 1 as [|e1 e2 tr1 tr2 He _ IH]; simpl; [reflexivity |].
  rewrite (twin_network rt c1 c2 _ _ He).
  destruct (is_network e2); simpl; now rewrite IH.
Qed.

Lemma accepts_own_get (rt : PyRuntime) (c : config) (path ts : string) :
  accepts c (HttpGet (text (BASE_URL c) ++ path)
                     (Some (signed_headers c "GET" path "" ts))) = true.
Proof.
  unfold accepts, signature_valid. simpl.
  rewrite string_drop_append. apply String.eqb_refl.
Qed.

Lemma accepts_own_post (rt : PyRuntime) (c : config) (content ts : string) :
  accepts c (HttpPost (order_url c)
                      (signed_headers c "POST" order_path content ts)
                      content) = true.
Proof.
  unfold accepts, signature_valid, order_url. simpl.
  rewrite string_drop_append. apply String.eqb_refl.
Qed.

Lemma twin_accepts (rt : PyRuntime) (c1 c2 : config) (e1 e2 : event) :
  twin c1 c2 e1 e2 -> accepts c1 e1 = accepts c2 e2.
Proof.
  intros [e He | path ts | content ts].
  - destruct e as [url [hdrs|]|url hdrs content|message|line];
      simpl in He; try discriminate; reflexivity.
  - now rewrite !accepts_own_get.
  - now rewrite !accepts_own_post.
Qed.

Lemma verifying_same_replies (c1 c2 : config)
    (replies : list (http_outcome (rt := Scenario.rt))) :
  same_replies (rt := Scenario.rt) c1 c2
    (Scenario.verifying c1 replies) (Scenario.verifying c2 replies).
Proof.
  intros tr1 tr2 Htr. unfold Scenario.verifying, Scenario.scripted.
  rewrite (twins_network_calls Scenario.rt c1 c2 _ _ Htr).
  replace (forallb (accepts (rt := Scenario.rt) c1) tr1)
    with (forallb (accepts (rt := Scenario.rt) c2) tr2); [reflexivity |].
  induction Htr as [|e1 e2 tr1 tr2 He _ IH]; simpl; [reflexivity |].
  now rewrite (twin_accepts Scenario.rt c1 c2 _ _ He), IH.
Qed.

(** The verifying exchange does tell secrets apart: a request signed with
    another secret than its own is refused. *)
Example verifying_refuses_other_secret :
  outcome (rt := Scenario.rt) (get_balance Scenario.cfg_other_secret)
    (Scenario.verifying Scenario.cfg [ Scenario.time_reply; Scenario.wallet ])
  = Raise HTTPStatusError
  /\ exists text,
       outcome (rt := Scenario.rt) (get_balance Scenario.cfg)
         (Scenario.verifying Scenario.cfg
            [ Scenario.time_reply; Scenario.wallet ])
       = Ok text.
Proof. split; [vm_compute; reflexivity |]. eexists. vm_compute. reflexivity. Qed.

(** C9, as stated, at a concrete run: [main] writes the secret to the
    console. *)
Lemma C9_counterexample :
  API_SECRET Scenario.cfg = Some "secret-1"
  /\ In "API_SECRET: secret-1"
        (printed (trace (rt := Scenario.rt) (main Scenario.cfg)
                        Scenario.exchange)).
Proof. split; [reflexivity |]. vm_compute. auto. Qed.

(** C9 (amended): a tool invocation writes nothing to the console,
    whatever the configuration and the exchange.  The start-up code,
    [main] and the "run" branch, prints the key, the secret and the
    passphrase.  With two configurations that each hold a non-empty secret
    and differ only in it, against exchanges that answer alike to
    histories differing only in the signatures the two configurations
    compute (exchanges that verify signatures included), a tool
    invocation ends in the same outcome, returned value or error, and
    sends, asks and posts the same things except for the value of the
    OK-ACCESS-SIGN header: the secret reaches a tool's run through the
    signature alone. *)
Theorem C9_secret_reaches_only_the_signature_and_the_startup_output
    (rt : PyRuntime) (c1 : config) :
  (forall (w : world) (call : tool_call),
      printed (trace (invoke c1 call) w) = [])
  /\ (forall w : world,
        printed (trace (main c1) w)
        = [ banner; "API_KEY: " ++ text (API_KEY c1);
            "API_SECRET: " ++ text (API_SECRET c1);
            "API_PASSPHRASE: " ++ text (API_PASSPHRASE c1) ])
  /\ (forall (w : world) (program : string),
        printed (trace (startup c1 [program; "run"]) w)
        = [ "Starting OKX MCP Server via SSE..."; banner;
            "API_KEY: " ++ text (API_KEY c1);
            "API_SECRET: " ++ text (API_SECRET c1);
            "API_PASSPHRASE: " ++ text (API_PASSPHRASE c1) ])
  /\ (forall (c2 : config) (w1 w2 : world) (call : tool_call),
        same_but_secret c1 c2 -> same_replies c1 c2 w1 w2 ->
        outcome (invoke c1 call) w1 = outcome (invoke c2 call) w2
        /\ Forall2 (twin c1 c2)
             (trace (invoke c1 call) w1) (trace (invoke c2 call) w2)
        /\ map scrub (trace (invoke c1 call) w1)
           = map scrub (trace (invoke c2 call) w2)).
Proof.
  split; [intros w call; apply (quiet_invoke c1 call w []) |].
  split; [reflexivity |]. split; [reflexivity |].
  intros c2 w1 w2 call Hc Hw.
  destruct (alike_invoke c1 c2 w1 w2 Hw Hc call [] [] (Forall2_nil _))
    as [Htr Hout].
  split; [now apply same_outcome_eq |].
  split; [exact Htr |]. now apply (twins_scrub c1 c2 Hc).
Qed.

(** The amended C9 on the balance tool, with two secrets and two
    exchanges that each verify signatures against their own secret. *)
Lemma C9_witness :
  outcome (rt := Scenario.rt) (invoke Scenario.cfg CallGetBalance)
    (Scenario.verifying Scenario.cfg [ Scenario.time_reply; Scenario.wallet ])
  = outcome (rt := Scenario.rt)
      (invoke Scenario.cfg_other_secret CallGetBalance)
      (Scenario.verifying Scenario.cfg_other_secret
         [ Scenario.time_reply; Scenario.wallet ])
  /\ printed (trace (rt := Scenario.rt) (invoke Scenario.cfg CallGetBalance)
                (Scenario.verifying Scenario.cfg
                   [ Scenario.time_reply; Scenario.wallet ])) = [].
Proof.
  destruct (C9_secret_reaches_only_the_signature_and_the_startup_output
              Scenario.rt Scenario.cfg) as (Hquiet & _ & _ & Hsame).
  split; [| apply Hquiet].
  apply Hsame.
  - repeat split.
  - apply verifying_same_replies.
Defined.

(** * Further properties

    What the code shows beyond the properties above: the outcomes of the
    clock fetch and of the header builder, the runs of the query tools, the
    shape of every run of [create_order], the errors that can follow the
    balance query, and the text of a signature. *)

Local Open Scope nat_scope.
Local Open Scope list_scope.
Local Open Scope string_scope.


(** ** The clock and the headers *)

Lemma substring_prefix (kept rest : string) :
  substring 0 (String.length kept) (kept ++ rest) = kept.
Proof.
  induction kept as [|c kept IH]; simpl.
  - now destruct rest.
  - now rewrite IH.
Qed.

Lemma drop_last3_append (kept dropped : string) :
  String.length dropped = 3 -> drop_last3 (kept ++ dropped) = kept.
Proof.
  intros H. unfold drop_last3. rewrite append_length, H.
  replace (String.length kept + 3 - 3) with (String.length kept) by lia.
  apply substring_prefix.
Qed.

(** X1: [get_okx_server_time] sends exactly one request, the
    unauthenticated GET of the time endpoint, and nothing else; a dropped
    connection raises [ConnectError], an error status [HTTPStatusError], a
    body that is not JSON [JSONDecodeError], a reply without ['data']
    [KeyError], an empty ['data'] [IndexError]; otherwise the result is
    the [strftime] text without its last three characters (microseconds
    cut to milliseconds, not rounded) followed by "Z". *)
Theorem X1_server_time_outcomes
    (rt : PyRuntime) (cfg : config) (w : world) (tr : list event) :
  snd (get_okx_server_time cfg w tr) = (tr ++ [clock_request cfg])%list
  /\ (w (tr ++ [clock_request cfg])%list = ConnectFailed ->
      fst (get_okx_server_time cfg w tr) = Raise ConnectError)
  /\ (forall r,
        w (tr ++ [clock_request cfg])%list = Responded r ->
        (is_success r = false ->
         fst (get_okx_server_time cfg w tr) = Raise HTTPStatusError)
        /\ (is_success r = true -> json_body r = None ->
            fst (get_okx_server_time cfg w tr) = Raise JSONDecodeError)
        /\ (forall members,
              is_success r = true -> json_body r = Some (JObj members) ->
              (assoc "data" members = None ->
               fst (get_okx_server_time cfg w tr) = Raise KeyError)
              /\ (assoc "data" members = Some (JArr []) ->
                  fst (get_okx_server_time cfg w tr) = Raise IndexError)
              /\ (forall item rest ts millis kept dropped,
                    assoc "data" members = Some (JArr (JObj item :: rest)) ->
                    assoc "ts" item = Some ts ->
                    py_int ts = Ok millis ->
                    strftime_utc_ms millis = Ok (kept ++ dropped) ->
                    String.length dropped = 3 ->
                    fst (get_okx_server_time cfg w tr) = Ok (kept ++ "Z")))).
Proof.
  unfold get_okx_server_time, bind, client_get, request, raise_for_status,
    response_json, lift, ret, raise, clock_request, clock_url.
  split.
  { by_cases_on_run. }
  split.
  { intros ->. reflexivity. }
  intros r ->. split; [intros ->; reflexivity |].
  split; [intros -> ->; reflexivity |].
  intros members -> ->. simpl.
  split; [intros ->; reflexivity |].
  split; [intros ->; reflexivity |].
  intros item rest ts millis kept dropped -> Hts Hint Hstamp Hlen. simpl.
  rewrite Hts. simpl. rewrite Hint. simpl. rewrite Hstamp. simpl.
  now rewrite (drop_last3_append _ _ Hlen).
Qed.

Lemma X1_witness :
  fst (get_okx_server_time (rt := Scenario.rt) Scenario.cfg
         Scenario.exchange [])
  = Ok "2024-06-07T12:34:56.789Z".
Proof.
  destruct (X1_server_time_outcomes Scenario.rt Scenario.cfg
              Scenario.exchange []) as (_ & _ & H).
  destruct (H (Build_response (rt := Scenario.rt) true
                 (Some (JObj [ ("code", JStr "0");
                               ("data",
                                JArr [ JObj [ ("ts", JStr "1717763696789") ] ]) ])))
              eq_refl) as (_ & _ & Hbody).
  destruct (Hbody _ eq_refl eq_refl) as (_ & _ & Hok).
  apply (Hok [ ("ts", JStr "1717763696789") ] [] (JStr "1717763696789")
           1717763696789%Z "2024-06-07T12:34:56.789" "000");
    reflexivity.
Defined.

Lemma sign_headers_run (rt : PyRuntime) (cfg : config) (m p b ts : string)
    (w : world) (tr : list event) :
  (signature <- lift (get_okx_signature cfg ts m p b) ;;
   ret [ ("Content-Type", "application/json");
         ("OK-ACCESS-KEY", text (API_KEY cfg));
         ("OK-ACCESS-SIGN", signature);
         ("OK-ACCESS-TIMESTAMP", ts);
         ("OK-ACCESS-PASSPHRASE", text (API_PASSPHRASE cfg));
         ("x-simulated-trading", "0") ]) w tr
  = (if is_falsy (API_SECRET cfg) then Raise secret_error
     else Ok (signed_headers cfg m p b ts), tr).
Proof.
  unfold bind, lift, ret.
  destruct (is_falsy (API_SECRET cfg)) eqn:Hs.
  - now rewrite (signature_raises cfg _ _ _ _ Hs).
  - now rewrite (signature_ok cfg _ _ _ _ Hs).
Qed.

Lemma bind_run (rt : PyRuntime) {A B : Type} (m : M A) (k : A -> M B)
    (w : world) (tr : list event) :
  bind m k w tr
  = match m w tr with
    | (Ok a, tr') => k a w tr'
    | (Raise e, tr') => (Raise e, tr')
    end.
Proof. reflexivity. Qed.

(** X2: [get_okx_headers] checks the key and the passphrase first: when
    one is missing it raises its [ValueError] without any request, even
    when no timestamp was passed.  With both present and no timestamp it
    fetches the server time itself, one request, and passes on the error
    of that fetch; with a timestamp it sends nothing.  The secret is
    looked at last: without it the signer's [ValueError] is raised,
    otherwise the six headers are returned, signed for the timestamp in
    hand. *)
Theorem X2_headers_check_key_before_clock
    (rt : PyRuntime) (cfg : config) (w : world) (tr : list event)
    (m p b : string) (timestamp : option string) :
  (is_falsy (API_KEY cfg) || is_falsy (API_PASSPHRASE cfg) = true ->
   get_okx_headers cfg m p b timestamp w tr
   = (Raise (ValueError
               (Some "API_KEY or API_PASSPHRASE not found in environment variables.")),
      tr))
  /\ (is_falsy (API_KEY cfg) || is_falsy (API_PASSPHRASE cfg) = false ->
      (is_falsy timestamp = true ->
       snd (get_okx_headers cfg m p b timestamp w tr)
       = (tr ++ [clock_request cfg])%list
       /\ (forall e,
             fst (get_okx_server_time cfg w tr) = Raise e ->
             fst (get_okx_headers cfg m p b timestamp w tr) = Raise e)
       /\ (forall ts,
             fst (get_okx_server_time cfg w tr) = Ok ts ->
             fst (get_okx_headers cfg m p b timestamp w tr)
             = if is_falsy (API_SECRET cfg) then Raise secret_error
               else Ok (signed_headers cfg m p b ts)))
      /\ (is_falsy timestamp = false ->
          get_okx_headers cfg m p b timestamp w tr
          = (if is_falsy (API_SECRET cfg) then Raise secret_error
             else Ok (signed_headers cfg m p b (text timestamp)), tr))).
Proof.
  split.
  { intros H. unfold get_okx_headers. now rewrite H. }
  intros Hkp. unfold get_okx_headers. rewrite Hkp. split.
  - intros Hts. rewrite Hts.
    destruct (server_time_run cfg w tr) as (r & Hrun & _).
    rewrite bind_run, Hrun.
    destruct r as [ts|e]; simpl.
    + rewrite sign_headers_run. simpl.
      split; [reflexivity |]. split; [discriminate |].
      intros ts' H. now injection H as <-.
    + split; [reflexivity |]. split; [| discriminate].
      intros e' H. now injection H as <-.
  - intros Hts. rewrite Hts. unfold bind at 1. unfold ret at 1.
    apply sign_headers_run.
Qed.

Lemma X2_witness :
  get_okx_headers (rt := Scenario.rt)
    {| API_KEY := None; API_SECRET := Some "secret-1";
       API_PASSPHRASE := Some "phrase-1";
       BASE_URL := Some "https://www.okx.com" |}
    "GET" "/api/v5/account/balance" "" None Scenario.exchange []
  = (Raise (ValueError
              (Some "API_KEY or API_PASSPHRASE not found in environment variables.")),
     []).
Proof.
  apply (X2_headers_check_key_before_clock Scenario.rt). reflexivity.
Defined.

(** ** The query tools *)

Lemma signed_exchange_complete (rt : PyRuntime) (cfg : config)
    (m p b : string) (req : headers -> event) (w : world) (tr : list event)
    (ts : string) :
  credential_absent cfg = false ->
  fst (get_okx_server_time cfg w tr) = Ok ts ->
  signed_exchange cfg m p b req w tr
  = (received
       (w (tr ++ [clock_request cfg; req (signed_headers cfg m p b ts)])%list),
     (tr ++ [clock_request cfg; req (signed_headers cfg m p b ts)])%list).
Proof.
  intros Hc Hts.
  destruct (server_time_run cfg w tr) as (r & Hrun & Hne).
  rewrite Hrun in Hts. simpl in Hts. subst r. specialize (Hne ts eq_refl).
  unfold signed_exchange. rewrite bind_run, Hrun.
  rewrite bind_run, (headers_run_ok cfg m p b ts w _ Hc Hne).
  unfold bind, request, raise_for_status, response_json, lift, ret, raise,
    received.
  rewrite <- app_assoc. simpl.
  destruct (w _) as [|resp]; [reflexivity |].
  destruct (is_success resp); reflexivity.
Qed.

(** X3: a query tool ([get_balance], [get_ticker], [get_kline]) run with
    the credentials present and a server time [ts] sends the clock fetch
    and one GET of its path signed for [ts] and the empty body; a dropped
    connection raises [ConnectError], an error status [HTTPStatusError], a
    body that is not JSON [JSONDecodeError], and a JSON body is returned as
    [json.dumps(body, indent=2)]. *)
Theorem X3_query_tool_outcomes
    (rt : PyRuntime) (cfg : config) (w : world) (path ts : string) :
  credential_absent cfg = false ->
  fst (get_okx_server_time cfg w []) = Ok ts ->
  let sent :=
    [ clock_request cfg;
      HttpGet (text (BASE_URL cfg) ++ path)
              (Some (signed_headers cfg "GET" path "" ts)) ] in
  trace (signed_get cfg path) w = sent
  /\ (w sent = ConnectFailed ->
      outcome (signed_get cfg path) w = Raise ConnectError)
  /\ (forall r,
        w sent = Responded r ->
        (is_success r = false ->
         outcome (signed_get cfg path) w = Raise HTTPStatusError)
        /\ (is_success r = true -> json_body r = None ->
            outcome (signed_get cfg path) w = Raise JSONDecodeError)
        /\ (forall body,
              is_success r = true -> json_body r = Some body ->
              outcome (signed_get cfg path) w
              = Ok (json_dumps_indent2 body))).
Proof.
  intros Hc Hts sent. unfold trace, outcome, run.
  rewrite signed_get_unfold.
  rewrite (signed_exchange_complete rt cfg _ _ _ _ w [] ts Hc Hts).
  simpl app. fold sent. unfold received.
  split; [destruct (w sent) as [|r]; [reflexivity |];
          destruct (is_success r); [destruct (json_body r) |]; reflexivity |].
  split; [intros ->; reflexivity |].
  intros r ->. split; [intros ->; reflexivity |].
  split; [intros -> ->; reflexivity |].
  intros body -> ->. reflexivity.
Qed.

Lemma X3_witness :
  outcome (rt := Scenario.rt)
    (get_ticker Scenario.cfg "BTC-USDT")
    (Scenario.scripted [ Scenario.time_reply; Scenario.order_reply ])
  = Ok (json_dumps_indent2 (PyRuntime := Scenario.rt)
          (JObj [ ("code", JStr "0");
                  ("data",
                   JArr [ JObj [ ("ordId", JStr "312269865356374016") ] ]) ])).
Proof.
  destruct (X3_query_tool_outcomes Scenario.rt Scenario.cfg
              (Scenario.scripted [ Scenario.time_reply; Scenario.order_reply ])
              "/api/v5/market/ticker?instId=BTC-USDT"
              "2024-06-07T12:34:56.789Z") as (_ & _ & H).
  - reflexivity.
  - vm_compute. reflexivity.
  - destruct (H (Build_response (rt := Scenario.rt) true
                   (Some (JObj [ ("code", JStr "0");
                                 ("data",
                                  JArr [ JObj [ ("ordId",
                                                 JStr "312269865356374016") ] ]) ]))))
      as (_ & _ & Hok).
    + reflexivity.
    + apply Hok; reflexivity.
Defined.

(** Whatever the configuration and the exchange, a query tool sends the
    clock fetch and at most one authenticated GET. *)
Lemma signed_get_shape (rt : PyRuntime) (cfg : config) (w : world)
    (path : string) :
  trace (signed_get cfg path) w = [clock_request cfg]
  \/ exists ts,
       trace (signed_get cfg path) w
       = [ clock_request cfg;
           HttpGet (text (BASE_URL cfg) ++ path)
                   (Some (signed_headers cfg "GET" path "" ts)) ].
Proof.
  unfold trace, run. rewrite signed_get_unfold.
  destruct (signed_exchange_run cfg "GET" path ""
              (fun hdrs => HttpGet (text (BASE_URL cfg) ++ path) (Some hdrs))
              w []) as (r & _ & Hrun).
  destruct r as [ts|e]; [| rewrite Hrun; now left].
  destruct (credential_absent cfg).
  - destruct Hrun as (msg & _ & ->). now left.
  - destruct Hrun as (r' & ->). right. exists ts. now destruct r'.
Qed.

(** X4: the three query tools only read: whatever the configuration and
    the exchange, they post nothing and consult no collaborator, and their
    run is the clock fetch alone or the clock fetch followed by one signed
    GET of the tool's own path (the balance path; the ticker path with
    [instId]; the candles path with [instId] and [bar]). *)
Theorem X4_query_tools_only_read
    (rt : PyRuntime) (cfg : config) (w : world) (call : tool_call) :
  (forall instId side sz ordType tdMode ctx,
      call <> CallCreateOrder instId side sz ordType tdMode ctx) ->
  let request_path :=
    match call with
    | CallGetTicker instId => "/api/v5/market/ticker?instId=" ++ instId
    | CallGetKline instId bar =>
        "/api/v5/market/candles?instId=" ++ instId ++ "&bar=" ++ bar
    | _ => "/api/v5/account/balance"
    end in
  posted (trace (invoke cfg call) w) = []
  /\ elicited (trace (invoke cfg call) w) = []
  /\ (trace (invoke cfg call) w = [clock_request cfg]
      \/ exists ts,
           trace (invoke cfg call) w
           = [ clock_request cfg;
               HttpGet (text (BASE_URL cfg) ++ request_path)
                       (Some (signed_headers cfg "GET" request_path "" ts)) ]).
Proof.
  intros Hquery.
  assert (H : forall path,
             posted (trace (signed_get cfg path) w) = []
             /\ elicited (trace (signed_get cfg path) w) = []
             /\ (trace (signed_get cfg path) w = [clock_request cfg]
                 \/ exists ts,
                      trace (signed_get cfg path) w
                      = [ clock_request cfg;
                          HttpGet (text (BASE_URL cfg) ++ path)
                                  (Some (signed_headers cfg "GET" path "" ts)) ])).
  { intros path.
    destruct (signed_get_shape rt cfg w path) as [Htr | (ts & Htr)];
      rewrite Htr; simpl; repeat split; eauto. }
  destruct call as [|instId|instId bar|instId side sz ordType tdMode ctx];
    simpl; try apply H.
  exfalso. now apply (Hquery instId side sz ordType tdMode ctx).
Qed.

Lemma X4_witness :
  posted (trace (rt := Scenario.rt)
            (invoke Scenario.cfg (CallGetKline "BTC-USDT" "1H"))
            Scenario.exchange) = []
  /\ elicited (trace (rt := Scenario.rt)
                 (invoke Scenario.cfg (CallGetKline "BTC-USDT" "1H"))
                 Scenario.exchange) = [].
Proof.
  destruct (X4_query_tools_only_read Scenario.rt Scenario.cfg
              Scenario.exchange (CallGetKline "BTC-USDT" "1H"))
    as (Hposted & Hasked & _).
  - discriminate.
  - split; [exact Hposted | exact Hasked].
Defined.

(** ** The shape of an order placement *)

(** What follows the balance check: at most one elicitation, then nothing,
    the clock fetch alone, or the clock fetch and the order. *)
Lemma decide_shape (rt : PyRuntime) (cfg : config)
    (instId side sz ordType tdMode : string) (ctx : option Context)
    (checked : string * pyfloat * pyfloat) (w : world) (tr : list event) :
  credential_absent cfg = false ->
  exists mid rest,
    snd (decide cfg instId side sz ordType tdMode ctx checked w tr)
    = (tr ++ mid ++ rest)%list
    /\ (mid = [] \/ exists message, mid = [Elicit message])
    /\ (rest = [] \/ rest = [clock_request cfg]
        \/ exists size ts,
             rest = [ clock_request cfg;
                      order_request cfg instId side size ordType tdMode ts ]).
Proof.
  intros Hc. destruct checked as [[ccy available] requested].
  assert (Hsubmit : forall size t,
             exists rest,
               snd (submit_order cfg instId side size ordType tdMode w t)
               = (t ++ rest)%list
               /\ (rest = [] \/ rest = [clock_request cfg]
                   \/ exists size' ts,
                        rest = [ clock_request cfg;
                                 order_request cfg instId side size'
                                   ordType tdMode ts ])).
  { intros size t.
    destruct (submit_order_run cfg instId side size ordType tdMode w t Hc)
      as (r & _ & Hrun).
    destruct r as [ts|e].
    - destruct Hrun as (r' & ->). eexists. split; [reflexivity |].
      right. right. now exists size, ts.
    - rewrite Hrun. eexists. split; [reflexivity |]. right. now left. }
  unfold decide.
  destruct (float_gt requested available).
  - destruct ctx as [ctx|].
    + unfold bind, elicit.
      destruct (elicit_reply ctx (elicit_message ccy available sz)) as [e|r].
      * exists [Elicit (elicit_message ccy available sz)], [].
        simpl. try rewrite app_nil_r. split; [reflexivity |]. split; eauto.
      * destruct (accepted r) as [d|].
        -- destruct (Hsubmit (newSize d)
                       (tr ++ [Elicit (elicit_message ccy available sz)])%list)
             as (rest & Hrest & Hshape).
           exists [Elicit (elicit_message ccy available sz)], rest.
           rewrite Hrest, <- app_assoc. split; [reflexivity |]. split; eauto.
        -- exists [Elicit (elicit_message ccy available sz)], [].
           simpl. try rewrite app_nil_r. split; [reflexivity |]. split; eauto.
    + exists [], []. simpl. try rewrite app_nil_r. auto.
  - destruct (Hsubmit sz tr) as (rest & Hrest & Hshape).
    exists [], rest. simpl. split; [exact Hrest |]. auto.
Qed.

(** Every run of [create_order]: the clock fetch; then the balance query;
    then at most one elicitation; then the clock fetch again; then the
    order.  It may stop after any of them. *)
Lemma create_order_shape (rt : PyRuntime) (cfg : config)
    (instId side sz ordType tdMode : string) (ctx : option Context)
    (w : world) :
  let tr := trace (create_order cfg instId side sz ordType tdMode ctx) w in
  tr = [clock_request cfg]
  \/ exists ts0 mid rest,
       tr = ([clock_request cfg; balance_request cfg ts0] ++ mid ++ rest)%list
       /\ (mid = [] \/ exists message, mid = [Elicit message])
       /\ (rest = [] \/ rest = [clock_request cfg]
           \/ exists size ts,
                rest = [ clock_request cfg;
                         order_request cfg instId side size ordType tdMode ts ]).
Proof.
  intros tr. subst tr. unfold trace, run. rewrite create_order_unfold.
  destruct (check_balance cfg instId side sz w []) as [[checked|e] tr0] eqn:Hcheck.
  - destruct checked as [[ccy available] requested].
    destruct (check_balance_ok cfg _ _ _ _ _ _ _ _ _ Hcheck)
      as (j & _ & _ & Hf & _).
    destruct (fetch_balance_ok cfg _ _ _ _ Hf) as (Hc & ts0 & _ & Htr0).
    simpl in Htr0. subst tr0.
    destruct (decide_shape rt cfg instId side sz ordType tdMode ctx
                (ccy, available, requested) w
                [clock_request cfg; balance_request cfg ts0] Hc)
      as (mid & rest & Hrun & Hmid & Hrest).
    right. exists ts0, mid, rest. split; [exact Hrun |]. auto.
  - pose proof (check_balance_trace cfg instId side sz w []) as Htr.
    rewrite Hcheck in Htr. simpl in Htr. simpl. rewrite Htr.
    destruct (fetch_balance_trace cfg w []) as [-> | (ts0 & ->)];
      [now left |].
    right. exists ts0, [], []. simpl. auto.
Qed.

(** X5: whatever the arguments, the configuration, the exchange and the
    collaborator, a run of [create_order] posts at most one order, asks
    the collaborator at most once and sends at most four requests; an order
    that is posted is the last thing the run does; and nothing is asked or
    posted before the clock fetch and the balance query have gone out. *)
Theorem X5_create_order_posts_at_most_once
    (rt : PyRuntime) (cfg : config)
    (instId side sz ordType tdMode : string) (ctx : option Context)
    (w : world) :
  let tr := trace (create_order cfg instId side sz ordType tdMode ctx) w in
  length (posted tr) <= 1
  /\ length (elicited tr) <= 1
  /\ length (network_calls tr) <= 4
  /\ (posted tr <> [] ->
      exists front ts size,
        tr = (front
                ++ [order_request cfg instId side size ordType tdMode ts])%list
        /\ posted front = [])
  /\ (posted tr <> [] \/ elicited tr <> [] ->
      exists ts0 later,
        tr = clock_request cfg :: balance_request cfg ts0 :: later).
Proof.
  intros tr.
  destruct (create_order_shape rt cfg instId side sz ordType tdMode ctx w)
    as [H | (ts0 & mid & rest & H & Hmid & Hrest)]; fold tr in H; rewrite H.
  - simpl. repeat split; try lia.
    + intros Hp. now contradiction Hp.
    + intros [Hp | He]; [now contradiction Hp | now contradiction He].
  - destruct Hmid as [-> | (message & ->)];
      destruct Hrest as [-> | [-> | (size & ts & ->)]]; simpl;
      repeat split; try lia;
      try (intros Hp; now contradiction Hp);
      try (intros _; eexists _, _; reflexivity).
    + intros _. exists [clock_request cfg; balance_request cfg ts0;
                        clock_request cfg], ts, size. split; reflexivity.
    + intros _. exists [clock_request cfg; balance_request cfg ts0;
                        Elicit message; clock_request cfg], ts, size.
      split; reflexivity.
Qed.

Lemma X5_witness :
  length (posted (trace (rt := Scenario.rt)
                    (create_order Scenario.cfg "BTC-USDT" "buy" "100"
                                  "market" "cash"
                                  (Some (Scenario.accepting "0.001")))
                    Scenario.exchange)) <= 1
  /\ exists ts0 later,
       trace (rt := Scenario.rt)
         (create_order Scenario.cfg "BTC-USDT" "buy" "100" "market" "cash"
                       (Some (Scenario.accepting "0.001")))
         Scenario.exchange
       = clock_request Scenario.cfg
           :: balance_request (rt := Scenario.rt) Scenario.cfg ts0 :: later.
Proof.
  destruct (X5_create_order_posts_at_most_once
              Scenario.rt Scenario.cfg "BTC-USDT" "buy" "100" "market" "cash"
              (Some (Scenario.accepting "0.001")) Scenario.exchange)
    as (Hposted & _ & _ & _ & Hfirst).
  split; [exact Hposted |].
  apply Hfirst. left. vm_compute. discriminate.
Defined.

(** X6: every request of every tool invocation is signed for what it
    sends: the clock fetch carries no header; an authenticated GET carries
    the headers signed for the path it is sent to and the empty body; a
    POST goes to the order path and is signed for the very content it
    carries; the timestamp signed is the timestamp sent. *)
Theorem X6_requests_sign_what_they_send
    (rt : PyRuntime) (cfg : config) (w : world) (call : tool_call) :
  Forall (well_signed cfg) (trace (invoke cfg call) w).
Proof.
  assert (Hclock : well_signed cfg (clock_request cfg)) by reflexivity.
  assert (Hget : forall path ts,
             well_signed cfg
               (HttpGet (text (BASE_URL cfg) ++ path)
                        (Some (signed_headers cfg "GET" path "" ts)))).
  { intros path ts. now exists path, ts. }
  assert (Hquery : forall path,
             Forall (well_signed cfg) (trace (signed_get cfg path) w)).
  { intros path.
    destruct (signed_get_shape rt cfg w path) as [-> | (ts & ->)];
      repeat constructor; auto. }
  destruct call as [|instId|instId bar|instId side sz ordType tdMode ctx];
    try apply Hquery.
  simpl invoke.
  destruct (create_order_shape rt cfg instId side sz ordType tdMode ctx w)
    as [-> | (ts0 & mid & rest & -> & Hmid & Hrest)];
    [repeat constructor; auto |].
  assert (Hbalance : well_signed cfg (balance_request cfg ts0))
    by apply Hget.
  assert (Hpost : forall size ts,
             well_signed cfg
               (order_request cfg instId side size ordType tdMode ts)).
  { intros size ts. now exists ts. }
  destruct Hmid as [-> | (message & ->)];
    destruct Hrest as [-> | [-> | (size & ts & ->)]];
    repeat constructor; auto.
Qed.

Lemma X6_witness :
  Forall (well_signed (rt := Scenario.rt) Scenario.cfg)
    (trace (rt := Scenario.rt)
       (invoke Scenario.cfg
          (CallCreateOrder "ETH-USDT" "sell" "0.01" "market" "cash" None))
       Scenario.exchange).
Proof.
  apply (X6_requests_sign_what_they_send Scenario.rt Scenario.cfg
           Scenario.exchange
           (CallCreateOrder "ETH-USDT" "sell" "0.01" "market" "cash" None)).
Defined.

(** X7: when the requested size exceeds the available balance and the
    call of [ctx.elicit] raises, [create_order] raises the same error right
    after the question: no order is posted and no further request is
    sent. *)
Theorem X7_failed_elicitation_posts_nothing
    (rt : PyRuntime) (cfg : config) (w : world)
    (instId side sz ordType tdMode : string) (ctx : Context)
    (ccy : string) (available requested : pyfloat) (tr0 : list event)
    (e : exn) :
  run (check_balance cfg instId side sz) w
  = (Ok (ccy, available, requested), tr0) ->
  float_gt requested available = true ->
  elicit_reply ctx (elicit_message ccy available sz) = ElicitRaised e ->
  let order := create_order cfg instId side sz ordType tdMode (Some ctx) in
  run order w
  = (Raise e, (tr0 ++ [Elicit (elicit_message ccy available sz)])%list)
  /\ posted (trace order w) = []
  /\ queried (trace order w) = [clock_url cfg; balance_url cfg].
Proof.
  intros Hcheck Hgt Hreply order. unfold run in Hcheck.
  destruct (check_balance_ok cfg _ _ _ _ _ _ _ _ _ Hcheck)
    as (j & base_ccy & quote_ccy & Hf & _).
  destruct (fetch_balance_ok cfg _ _ _ _ Hf) as (_ & ts0 & _ & Htr0).
  simpl in Htr0. subst tr0.
  unfold trace, run, order.
  rewrite create_order_unfold, Hcheck. unfold decide.
  rewrite Hgt. unfold bind, elicit. rewrite Hreply. simpl.
  repeat split.
Qed.

Lemma X7_witness :
  run (rt := Scenario.rt)
    (create_order Scenario.cfg "BTC-USDT" "buy" "100" "market" "cash"
       (Some {| elicit_reply := fun _ => ElicitRaised ElicitationError |}))
    Scenario.exchange
  = (Raise ElicitationError,
     (snd (run (rt := Scenario.rt)
             (check_balance Scenario.cfg "BTC-USDT" "buy" "100")
             Scenario.exchange)
        ++ [Elicit (elicit_message (rt := Scenario.rt) "USDT"
                      (Reference.Build_dec 50 0) "100")])%list).
Proof.
  apply (X7_failed_elicitation_posts_nothing
           Scenario.rt Scenario.cfg Scenario.exchange
           "BTC-USDT" "buy" "100" "market" "cash"
           {| elicit_reply := fun _ => ElicitRaised ElicitationError |}
           "USDT" (Reference.Build_dec 50 0) (Reference.Build_dec 100 0)
           (snd (run (rt := Scenario.rt)
                   (check_balance Scenario.cfg "BTC-USDT" "buy" "100")
                   Scenario.exchange))
           ElicitationError).
  - vm_compute. reflexivity.
  - vm_compute. reflexivity.
  - reflexivity.
Defined.

(** X8: once the balance query has succeeded and the instrument id has
    split in two, an error in reading the reply (lines 132-135) ends
    [create_order] with that error, and a size that [float] cannot read
    (line 137) ends it with [ValueError]; the reply is read first.  In both
    cases the run is the clock fetch and the balance query: nothing is
    asked and nothing is posted. *)
Theorem X8_errors_after_the_balance_query
    (rt : PyRuntime) (cfg : config) (w : world)
    (instId side sz ordType tdMode : string) (ctx : option Context)
    (balance_data : json pyfloat) (tr0 : list event)
    (base_ccy quote_ccy : string) :
  run (fetch_balance cfg) w = (Ok balance_data, tr0) ->
  split "-" instId = [base_ccy; quote_ccy] ->
  let ccy := if String.eqb side "buy" then quote_ccy else base_ccy in
  let order := create_order cfg instId side sz ordType tdMode ctx in
  (forall e,
      resolve_available balance_data ccy = Raise e ->
      run order w = (Raise e, tr0))
  /\ (forall available,
        resolve_available balance_data ccy = Ok available ->
        float_of_str sz = None ->
        run order w = (Raise (ValueError None), tr0))
  /\ posted tr0 = [] /\ elicited tr0 = []
  /\ queried tr0 = [clock_url cfg; balance_url cfg].
Proof.
  intros Hf Hsplit ccy order. unfold run in Hf.
  destruct (fetch_balance_ok cfg _ _ _ _ Hf) as (_ & ts0 & _ & Htr0).
  simpl in Htr0. subst tr0.
  unfold run, order. rewrite create_order_unfold.
  unfold check_balance, bind, lift. rewrite Hf, Hsplit. simpl. fold ccy.
  split; [intros e ->; reflexivity |].
  split; [intros available -> ->; reflexivity |].
  repeat split.
Qed.

Lemma X8_witness :
  run (rt := Scenario.rt)
    (create_order Scenario.cfg "BTC-USDT" "buy" "a lot" "market" "cash" None)
    Scenario.exchange
  = (Raise (ValueError None),
     snd (run (rt := Scenario.rt) (fetch_balance Scenario.cfg)
            Scenario.exchange)).
Proof.
  destruct (X8_errors_after_the_balance_query
              Scenario.rt Scenario.cfg Scenario.exchange
              "BTC-USDT" "buy" "a lot" "market" "cash" None
              (JObj [ ("code", JStr "0");
                      ("data",
                       JArr [ Scenario.account
                                [ Scenario.held "ETH" "1";
                                  Scenario.held "USDT" "50" ] ]) ])
              (snd (run (rt := Scenario.rt) (fetch_balance Scenario.cfg)
                      Scenario.exchange))
              "BTC" "USDT") as (_ & Hsize & _).
  - vm_compute. reflexivity.
  - reflexivity.
  - apply (Hsize (Reference.Build_dec 50 0)).
    + vm_compute. reflexivity.
    + vm_compute. reflexivity.
Defined.

(** X9: when the balance check has passed ([float(sz) > available] is
    false) and the second clock fetch gives [ts], [create_order] posts the
    order with the original size, signed for [ts], and the outcome follows
    the reply to the POST: [ConnectError], [HTTPStatusError] or
    [JSONDecodeError] are raised although the order has been sent;
    a JSON body is returned as [json.dumps(body, indent=2)]. *)
Theorem X9_order_outcome_follows_the_reply
    (rt : PyRuntime) (cfg : config) (w : world)
    (instId side sz ordType tdMode : string) (ctx : option Context)
    (ccy : string) (available requested : pyfloat) (tr0 : list event)
    (ts : string) :
  run (check_balance cfg instId side sz) w
  = (Ok (ccy, available, requested), tr0) ->
  float_gt requested available = false ->
  fst (get_okx_server_time cfg w tr0) = Ok ts ->
  let order := create_order cfg instId side sz ordType tdMode ctx in
  let sent :=
    (tr0 ++ [ clock_request cfg;
              order_request cfg instId side sz ordType tdMode ts ])%list in
  trace order w = sent
  /\ posted (trace order w)
     = [(order_url cfg, json_dumps (order_body instId tdMode side ordType sz))]
  /\ (w sent = ConnectFailed -> outcome order w = Raise ConnectError)
  /\ (forall r,
        w sent = Responded r ->
        (is_success r = false -> outcome order w = Raise HTTPStatusError)
        /\ (is_success r = true -> json_body r = None ->
            outcome order w = Raise JSONDecodeError)
        /\ (forall body,
              is_success r = true -> json_body r = Some body ->
              outcome order w = Ok (json_dumps_indent2 body))).
Proof.
  intros Hcheck Hle Hts order sent. unfold run in Hcheck.
  destruct (check_balance_ok cfg _ _ _ _ _ _ _ _ _ Hcheck)
    as (j & base_ccy & quote_ccy & Hf & _).
  destruct (fetch_balance_ok cfg _ _ _ _ Hf) as (Hc & ts0 & _ & Htr0).
  simpl in Htr0. subst tr0.
  unfold trace, outcome, run, order.
  rewrite create_order_unfold, Hcheck. unfold decide. rewrite Hle.
  rewrite submit_order_unfold.
  rewrite (signed_exchange_complete rt cfg _ _ _ _ w _ ts Hc Hts).
  fold (order_url cfg).
  change (HttpPost (order_url cfg)
            (signed_headers cfg "POST" order_path
               (json_dumps (order_body instId tdMode side ordType sz)) ts)
            (json_dumps (order_body instId tdMode side ordType sz)))
    with (order_request cfg instId side sz ordType tdMode ts).
  fold sent. unfold received.
  split; [destruct (w sent) as [|r]; [reflexivity |];
          destruct (is_success r); [destruct (json_body r) |]; reflexivity |].
  split.
  { destruct (w sent) as [|r]; [reflexivity |].
    destruct (is_success r); [destruct (json_body r) |]; reflexivity. }
  split; [intros ->; reflexivity |].
  intros r ->. split; [intros ->; reflexivity |].
  split; [intros -> ->; reflexivity |].
  intros body -> ->. reflexivity.
Qed.

Lemma X9_witness :
  outcome (rt := Scenario.rt)
    (create_order Scenario.cfg "ETH-USDT" "sell" "0.01" "market" "cash" None)
    (Scenario.scripted
       [ Scenario.time_reply; Scenario.wallet; Scenario.time_reply;
         Responded (Build_response (rt := Scenario.rt) false None) ])
  = Raise HTTPStatusError
  /\ posted
       (trace (rt := Scenario.rt)
          (create_order Scenario.cfg "ETH-USDT" "sell" "0.01" "market" "cash"
                        None)
          (Scenario.scripted
             [ Scenario.time_reply; Scenario.wallet; Scenario.time_reply;
               Responded (Build_response (rt := Scenario.rt) false None) ]))
     = [(order_url Scenario.cfg,
         json_dumps (PyRuntime := Scenario.rt)
           (order_body "ETH-USDT" "cash" "sell" "market" "0.01"))].
Proof.
  destruct (X9_order_outcome_follows_the_reply
              Scenario.rt Scenario.cfg
              (Scenario.scripted
                 [ Scenario.time_reply; Scenario.wallet; Scenario.time_reply;
                   Responded (Build_response (rt := Scenario.rt) false None) ])
              "ETH-USDT" "sell" "0.01" "market" "cash" None
              "ETH" (Reference.Build_dec 1 0) (Reference.Build_dec 1 2)
              (snd (run (rt := Scenario.rt)
                      (check_balance Scenario.cfg "ETH-USDT" "sell" "0.01")
                      Scenario.exchange))
              "2024-06-07T12:34:56.789Z") as (_ & Hposted & _ & Hreply).
  - vm_compute. reflexivity.
  - vm_compute. reflexivity.
  - vm_compute. reflexivity.
  - split; [| exact Hposted].
    destruct (Hreply (Build_response (rt := Scenario.rt) false None))
      as (Hstatus & _).
    + reflexivity.
    + apply Hstatus. reflexivity.
Defined.

(** ** Replies the balance check cannot read *)

(** X10: what the loop over the balance reply does on replies of another
    shape: a reply that is not a dict raises [AttributeError]; an empty
    ['data'] raises [IndexError]; a first account without ['details'] gives
    0.0; a detail entry that is not a dict, met before any match, raises
    [AttributeError]; a matching entry whose ['availBal'] is null raises
    [TypeError], and one whose ['availBal'] is a string [float] cannot
    read raises [ValueError]. *)
Theorem X10_balance_replies_that_raise (rt : PyRuntime) (ccy : string) :
  (forall reply,
      (forall members, reply <> JObj members) ->
      resolve_available reply ccy = Raise AttributeError)
  /\ (forall members,
        assoc "data" members = Some (JArr []) ->
        resolve_available (JObj members) ccy = Raise IndexError)
  /\ (forall members account others,
        assoc "data" members = Some (JArr (JObj account :: others)) ->
        assoc "details" account = None ->
        resolve_available (JObj members) ccy = Ok float_zero)
  /\ (forall members account others before entry after,
        assoc "data" members = Some (JArr (JObj account :: others)) ->
        assoc "details" account = Some (JArr (before ++ entry :: after)) ->
        forallb (passed_over ccy) before = true ->
        (forall fields, entry <> JObj fields) ->
        resolve_available (JObj members) ccy = Raise AttributeError)
  /\ (forall members account others before hit after,
        assoc "data" members = Some (JArr (JObj account :: others)) ->
        assoc "details" account = Some (JArr (before ++ JObj hit :: after)) ->
        forallb (passed_over ccy) before = true ->
        assoc "ccy" hit = Some (JStr ccy) ->
        (assoc "availBal" hit = Some JNull ->
         resolve_available (JObj members) ccy = Raise TypeError)
        /\ (forall amount,
              assoc "availBal" hit = Some (JStr amount) ->
              float_of_str amount = None ->
              resolve_available (JObj members) ccy = Raise (ValueError None))).
Proof.
  split.
  { intros reply H. destruct reply; try reflexivity.
    now contradiction (H members). }
  split.
  { intros members H. unfold resolve_available. simpl. now rewrite H. }
  split.
  { intros members account others Hdata Hdetails.
    unfold resolve_available. simpl. rewrite Hdata. simpl.
    now rewrite Hdetails. }
  split.
  { intros members account others before entry after Hdata Hdetails Hbefore
      Hentry.
    unfold resolve_available. simpl. rewrite Hdata. simpl. rewrite Hdetails.
    simpl. rewrite (scan_details_passes _ _ _ Hbefore).
    destruct entry; try reflexivity. now contradiction (Hentry members0). }
  intros members account others before hit after Hdata Hdetails Hbefore Hhit.
  assert (H : resolve_available (JObj members) ccy
              = py_float (match assoc "availBal" hit with
                          | Some avail => avail
                          | None => JInt 0
                          end)).
  { unfold resolve_available. simpl. rewrite Hdata. simpl. rewrite Hdetails.
    simpl. rewrite (scan_details_passes _ _ _ Hbefore).
    now apply scan_details_stops. }
  rewrite H. split.
  - intros ->. reflexivity.
  - intros amount -> Hamount. simpl. now rewrite Hamount.
Qed.

Lemma X10_witness :
  resolve_available (rt := Scenario.rt)
    (JObj [ ("code", JStr "0");
            ("data",
             JArr [ Scenario.account
                      [ Scenario.held "ETH" "1"; JStr "USDT";
                        Scenario.held "USDT" "50" ] ]) ])
    "USDT"
  = Raise AttributeError.
Proof.
  destruct (X10_balance_replies_that_raise Scenario.rt "USDT")
    as (_ & _ & _ & Hentry & _).
  apply (Hentry _ [ ("totalEq", JStr "1000");
                    ("details",
                     JArr [ Scenario.held "ETH" "1"; JStr "USDT";
                            Scenario.held "USDT" "50" ]) ]
           [] [ Scenario.held "ETH" "1" ] (JStr "USDT")
           [ Scenario.held "USDT" "50" ]);
    try reflexivity.
  discriminate.
Defined.

(** ** The instrument id *)

Lemma split_single (sep : ascii) (s piece : string) :
  split sep s = [piece] -> s = piece /\ count_char sep s = 0%nat.
Proof.
  revert piece. induction s as [|c s IH]; simpl; intros piece H.
  - now injection H as <-.
  - destruct (Ascii.eqb c sep).
    + injection H as _ H. now contradiction (split_nonempty sep s).
    + destruct (split sep s) as [|first pieces] eqn:Es;
        [now contradiction (split_nonempty sep s) |].
      injection H as <- ->. destruct (IH first eq_refl) as [-> Hc]. auto.
Qed.

Lemma split_in_two (sep : ascii) (s first second : string) :
  split sep s = [first; second] ->
  s = first ++ String sep second
  /\ count_char sep first = 0%nat /\ count_char sep second = 0%nat.
Proof.
  revert first. induction s as [|c s IH]; simpl; intros first H;
    [discriminate |].
  destruct (Ascii.eqb c sep) eqn:E.
  - apply Ascii.eqb_eq in E. subst c. injection H as <- H.
    apply split_single in H as [-> Hc]. auto.
  - destruct (split sep s) as [|piece pieces] eqn:Es; [discriminate |].
    injection H as <- ->.
    destruct (IH piece eq_refl) as (-> & Hf & Hs). simpl. rewrite E. auto.
Qed.

Lemma split_whole (sep : ascii) (s : string) :
  count_char sep s = 0%nat -> split sep s = [s].
Proof.
  induction s as [|c s IH]; simpl; [reflexivity |].
  destruct (Ascii.eqb c sep); [discriminate |].
  intros H. now rewrite (IH H).
Qed.

Lemma split_joined (sep : ascii) (first second : string) :
  count_char sep first = 0%nat ->
  split sep (first ++ String sep second) = first :: split sep second.
Proof.
  induction first as [|c first IH]; simpl.
  - now rewrite Ascii.eqb_refl.
  - destruct (Ascii.eqb c sep); [discriminate |].
    intros H. now rewrite (IH H).
Qed.

(** X11: the unpacking [base_ccy, quote_ccy = instId.split('-')]
    succeeds with [base_ccy] and [quote_ccy] exactly when [instId] is
    [base_ccy], a hyphen and [quote_ccy], neither of the two holding a
    hyphen. *)
Theorem X11_instrument_id_parsing (instId base_ccy quote_ccy : string) :
  unpack_pair (split "-" instId) = Ok (base_ccy, quote_ccy)
  <-> instId = base_ccy ++ "-" ++ quote_ccy
      /\ count_char "-" base_ccy = 0%nat
      /\ count_char "-" quote_ccy = 0%nat.
Proof.
  rewrite unpack_pair_ok. simpl. split.
  - apply split_in_two.
  - intros (-> & Hb & Hq).
    change (base_ccy ++ "-" ++ quote_ccy)
      with (base_ccy ++ String "-" quote_ccy).
    now rewrite (split_joined _ _ _ Hb), (split_whole _ _ Hq).
Qed.

Lemma X11_witness :
  unpack_pair (split "-" "BTC-USDT") = Ok ("BTC", "USDT")
  /\ unpack_pair (split "-" "BTC-USDT-SWAP") <> Ok ("BTC", "USDT-SWAP").
Proof.
  split.
  - apply (X11_instrument_id_parsing "BTC-USDT" "BTC" "USDT").
    repeat split.
  - intros H.
    apply (X11_instrument_id_parsing "BTC-USDT-SWAP" "BTC" "USDT-SWAP") in H.
    destruct H as (_ & _ & H). discriminate.
Defined.

(** ** The text of a signature *)

Lemma sextet_length (a : Z) :
  (0 <= a < 64)%Z -> String.length (Base64.sextet a) = 1.
Proof. intros H. destruct (sextet_single a H) as [c ->]. reflexivity. Qed.

Lemma b64encode_length :
  forall (n : nat) (xs : list Z),
    length xs <= n -> Forall is_byte xs ->
    String.length (Base64.b64encode xs) = 4 * ((length xs + 2) / 3).
Proof.
  induction n as [|n IH]; intros xs Hn Hx.
  - destruct xs; [reflexivity | simpl in Hn; lia].
  - destruct xs as [|a [|b [|c xs]]]; [reflexivity | | |].
    + inversion Hx as [|? ? Ha _]; subst. simpl.
      rewrite !append_length, !sextet_length; try sextet_bounds.
      reflexivity.
    + inversion Hx as [|? ? Ha Hx']; inversion Hx' as [|? ? Hb _]; subst.
      simpl. rewrite !append_length, !sextet_length; try sextet_bounds.
      reflexivity.
    + inversion Hx as [|? ? Ha Hx']; inversion Hx' as [|? ? Hb Hx''];
        inversion Hx'' as [|? ? Hc Hxs]; subst.
      change (Base64.b64encode (a :: b :: c :: xs))
        with (Base64.sextet (a / 4)
                ++ Base64.sextet (a mod 4 * 16 + b / 16)
                ++ Base64.sextet (b mod 16 * 4 + c / 64)
                ++ Base64.sextet (c mod 64) ++ Base64.b64encode xs).
      rewrite !append_length, !sextet_length; try sextet_bounds.
      rewrite (IH xs); [| simpl in Hn; lia | exact Hxs].
      cbn [length].
      replace (S (S (S (length xs))) + 2) with (1 * 3 + (length xs + 2))
        by lia.
      rewrite Nat.div_add_l; lia.
Qed.

(** X12: with a secret configured, [get_okx_signature] returns a text of
    exactly 44 characters, whatever the timestamp, method, path and
    body. *)
Theorem X12_signature_has_44_characters
    (rt : PyRuntime) (cfg : config) (ts m p b : string) :
  is_falsy (API_SECRET cfg) = false ->
  exists signature,
    get_okx_signature cfg ts m p b = Ok signature
    /\ String.length signature = 44.
Proof.
  intros Hs. rewrite (signature_ok cfg _ _ _ _ Hs).
  eexists. split; [reflexivity |]. unfold okx_signature.
  destruct (hmac_shape (utf8_bytes (text (API_SECRET cfg)))
              (utf8_bytes (signed_message ts m p b))) as [Hlen Hbytes].
  rewrite (b64encode_length 32); [| lia | exact Hbytes].
  now rewrite Hlen.
Qed.

Lemma X12_witness :
  exists signature,
    get_okx_signature (rt := Scenario.rt) Scenario.cfg
      "2024-06-07T12:34:56.789Z" "POST" "/api/v5/trade/order" "{}"
    = Ok signature
    /\ String.length signature = 44.
Proof.
  apply (X12_signature_has_44_characters Scenario.rt Scenario.cfg).
  reflexivity.
Defined.

(** X13: the signature depends on the four fields only through their
    concatenation: two requests whose timestamp, upper-cased method, path
    and body concatenate to the same text get the same signature, so where
    the path ends and the body starts is not authenticated. *)
Theorem X13_signature_ignores_field_boundaries
    (rt : PyRuntime) (cfg : config) (ts m p b ts' m' p' b' : string) :
  ts ++ str_upper m ++ p ++ b = ts' ++ str_upper m' ++ p' ++ b' ->
  get_okx_signature cfg ts m p b = get_okx_signature cfg ts' m' p' b'.
Proof.
  intros H. unfold get_okx_signature.
  destruct (API_SECRET cfg) as [[|c secret]|]; try reflexivity.
  cbv zeta. now rewrite H.
Qed.

Lemma X13_witness :
  get_okx_signature (rt := Scenario.rt) Scenario.cfg
    "2024-06-07T12:34:56.789Z" "POST" "/api/v5/trade/order" "{}"
  = get_okx_signature (rt := Scenario.rt) Scenario.cfg
      "2024-06-07T12:34:56.789Z" "POST" "/api/v5/trade/order{" "}".
Proof.
  apply (X13_signature_ignores_field_boundaries Scenario.rt Scenario.cfg).
  reflexivity.
Defined.
